(** * terraform-provider-fastly: the TLS subscription resource and the
      hashcode utility, embedded from the Go sources

    - [hashcode]  : fastly/hashcode/hashcode.go
    - [fastly]    : fastly/resource_fastly_tls_subscription.go

    Go strings are byte sequences; they are modelled by [string], whose
    characters are 8-bit [ascii] values.  Machine integers are modelled by
    [Z] with the wrap-around written out. *)

From Stdlib Require Import ZArith Lia.
From stdpp Require Import gmap strings list fin_maps pretty.

Local Open Scope Z_scope.

(* ===================================================================== *)
(** * Package hashcode *)
(* ===================================================================== *)

Module hashcode.

(** Go's [int] is 32 or 64 bits wide depending on the target platform. *)
Inductive Arch := Arch32 | Arch64.

Definition intSize (a : Arch) : Z :=
  match a with Arch32 => 32 | Arch64 => 64 end.

Definition MinInt (a : Arch) : Z := - 2 ^ (intSize a - 1).
Definition MaxInt (a : Arch) : Z := 2 ^ (intSize a - 1) - 1.

(** Two's-complement reading of the low [intSize a] bits of [x]: the
    result of a Go conversion to [int] and of [int] arithmetic. *)
Definition toInt (a : Arch) (x : Z) : Z :=
  let m := x mod 2 ^ intSize a in
  if m <? 2 ^ (intSize a - 1) then m else m - 2 ^ intSize a.

(** Unary minus on [int] (wraps at [MinInt]). *)
Definition neg (a : Arch) (v : Z) : Z := toInt a (- v).

(** [[]byte(s)] *)
Definition bytes (s : string) : list Z :=
  (fun c => Z.of_N (Ascii.N_of_ascii c)) <$> String.list_ascii_of_string s.

(** ** hash/crc32 of the Go standard library (generic implementation)

    [IEEE] is the reversed polynomial; [simpleTable] is one entry of the
    256-entry table that [simplePopulateTable] fills, [simpleUpdate] the
    byte-at-a-time update. *)
Definition IEEE : Z := 0xedb88320.

(** The values of a [uint32]. *)
Definition uint32 (x : Z) : Prop := 0 ≤ x < 2 ^ 32.

Definition uint32_not (x : Z) : Z := Z.lxor x 0xffffffff.

Definition tableStep (poly crc : Z) : Z :=
  if Z.land crc 1 =? 1 then Z.lxor (Z.shiftr crc 1) poly else Z.shiftr crc 1.

Definition simpleTable (poly i : Z) : Z :=
  Nat.iter 8 (tableStep poly) i.

Definition updateByte (poly crc v : Z) : Z :=
  Z.lxor (simpleTable poly (Z.lxor (Z.land crc 0xff) v)) (Z.shiftr crc 8).

Definition simpleUpdate (poly crc : Z) (p : list Z) : Z :=
  uint32_not (fold_left (updateByte poly) p (uint32_not crc)).

Definition ChecksumIEEE (data : list Z) : Z := simpleUpdate IEEE 0 data.

(** ** func String(s string) int *)
Definition String (a : Arch) (s : string) : Z :=
  let v := toInt a (ChecksumIEEE (bytes s)) in
  if v >=? 0 then v
  else if neg a v >=? 0 then neg a v
  else (* v == MinInt *) 0.

(** ** func Strings(strings []string) (string, error)

    [buf.WriteString] on a [bytes.Buffer] never returns an error, so only
    the formatted hash is modelled: each element followed by "-". *)
Definition joined (strings : list string) : string :=
  fold_right (fun s acc => s +:+ "-" +:+ acc)%string EmptyString strings.

Definition StringsHash (a : Arch) (strings : list string) : Z :=
  String a (joined strings).

(** The result of [Strings]: the hash printed with the verb %d, in
    decimal; the error it returns with it is always nil. *)
Definition Strings (a : Arch) (strings : list string) : string :=
  pretty (StringsHash a strings).

End hashcode.

(* ===================================================================== *)
(** * Package fastly: the TLS subscription resource *)
(* ===================================================================== *)

Module fastly.

Local Open Scope string_scope.

(** ** Pieces of the Go standard library and of the plugin SDK *)

(** [fmt]'s rendering of a slice of strings with the verbs %v and %s. *)
Definition fmt_list (l : list string) : string :=
  "[" +:+ String.concat " " l +:+ "]".

(** An [error] value.  The client reports HTTP failures as
    [gofastly.HTTPError]; every other failure (transport, decoding,
    missing input field) is some other error type. *)
Inductive error :=
| HTTPError (StatusCode : Z) (msg : string)
| otherError (msg : string).

Definition Error (e : error) : string :=
  match e with HTTPError _ m => m | otherError m => m end.

(** The type assertion of [err] to a pointer to [gofastly.HTTPError]: the typed pointer (nil when the
    assertion fails) and the [ok] flag. *)
Definition asHTTPError (err : option error) : option (Z * string) * bool :=
  match err with
  | Some (HTTPError c m) => (Some (c, m), true)
  | _ => (None, false)
  end.

(** [HTTPError.IsNotFound]: the status code is 404. *)
Definition IsNotFound (e : option (Z * string)) : bool :=
  match e with Some (c, _) => (c =? 404)%Z | None => false end.

Inductive Severity := SeverityError | SeverityWarning.

Record Diagnostic := {
  Severity_ : Severity;
  Summary : string;
  AttributePath : list string
}.

Definition Diagnostics := list Diagnostic.

(** [diag.Errorf] and [diag.FromErr] ([FromErr(nil)] is [nil]). *)
Definition diag_Errorf (msg : string) : Diagnostics :=
  [ {| Severity_ := SeverityError; Summary := msg; AttributePath := [] |} ].

Definition diag_FromErr (err : option error) : Diagnostics :=
  match err with
  | None => []
  | Some e => diag_Errorf (Error e)
  end.

Definition isError (x : Diagnostic) : bool :=
  match Severity_ x with SeverityError => true | SeverityWarning => false end.

(** [(diag.Diagnostics).HasError] *)
Definition HasError (ds : Diagnostics) : bool := existsb isError ds.

(** ** Payload types of the go-fastly client, as far as the resource
       reads or builds them.  Pointers to structs inside a decoded
       payload are taken to be non-nil; a slice that the resource tests
       against [nil] is an [option]. *)

Module TLSConfiguration.
Record t := { ID : string }.
End TLSConfiguration.

Module TLSActivation.
Record t := { Configuration : TLSConfiguration.t }.
End TLSActivation.

Module TLSDomain.
Record t := {
  ID : string;
  Activations : option (list TLSActivation.t)   (* [None] is the nil slice *)
}.
End TLSDomain.

Module TLSChallenge.
Record t := {
  RecordName : string;
  RecordType : string;
  Type_ : string;
  Values : list string
}.
End TLSChallenge.

Module TLSAuthorizations.
Record t := { Challenges : list TLSChallenge.t }.
End TLSAuthorizations.

Module TLSSubscriptionCertificate.
Record t := { ID : string }.
End TLSSubscriptionCertificate.

Module TLSSubscription.
Record t := {
  Authorizations : list TLSAuthorizations.t;
  CertificateAuthority : string;
  Certificates : list TLSSubscriptionCertificate.t;
  CommonName : TLSDomain.t;
  Configuration : TLSConfiguration.t;
  CreatedAt : Z;
  Domains : list TLSDomain.t;
  ID : string;
  State : string;
  UpdatedAt : Z
}.
End TLSSubscription.

Module CreateTLSSubscriptionInput.
Record t := {
  CertificateAuthority : string;
  Configuration : option TLSConfiguration.t;
  Domains : list TLSDomain.t;
  CommonName : option TLSDomain.t
}.
End CreateTLSSubscriptionInput.

Module GetTLSSubscriptionInput.
Record t := { ID : string; Include : option string }.
End GetTLSSubscriptionInput.

Module ListTLSDomainsInput.
Record t := {
  FilterTLSCertificateID : string;
  Include : string;
  Sort : string
}.
End ListTLSDomainsInput.

Module UpdateTLSSubscriptionInput.
Record t := {
  ID : string;
  Force : bool;
  CommonName : option TLSDomain.t;
  Domains : list TLSDomain.t;
  Configuration : option TLSConfiguration.t
}.
End UpdateTLSSubscriptionInput.

Module DeleteTLSSubscriptionInput.
Record t := { ID : string; Force : bool }.
End DeleteTLSSubscriptionInput.

(** [&gofastly.TLSDomain{ID: s}] *)
Definition newTLSDomain (s : string) : TLSDomain.t :=
  {| TLSDomain.ID := s; TLSDomain.Activations := None |}.

(** A remote call, as it leaves the provider. *)
Inductive Call :=
| CallCreateTLSSubscription (i : CreateTLSSubscriptionInput.t)
| CallGetTLSSubscription (i : GetTLSSubscriptionInput.t)
| CallListTLSDomains (i : ListTLSDomainsInput.t)
| CallUpdateTLSSubscription (i : UpdateTLSSubscriptionInput.t)
| CallDeleteTLSSubscription (i : DeleteTLSSubscriptionInput.t).

Definition isUpdateCall (c : Call) : bool :=
  match c with CallUpdateTLSSubscription _ => true | _ => false end.

Definition isGetCall (c : Call) : bool :=
  match c with CallGetTLSSubscription _ => true | _ => false end.

(** The API client [conn].  The remote service is any deterministic
    server: each answer is a function of the calls received so far and of
    the current input.  Every method returns Go's (value, error) pair. *)
Record Client := {
  CreateTLSSubscription :
    list Call → CreateTLSSubscriptionInput.t → option TLSSubscription.t * option error;
  GetTLSSubscription :
    list Call → GetTLSSubscriptionInput.t → option TLSSubscription.t * option error;
  ListTLSDomains :
    list Call → ListTLSDomainsInput.t → list TLSDomain.t * option error;
  UpdateTLSSubscription :
    list Call → UpdateTLSSubscriptionInput.t → option TLSSubscription.t * option error;
  DeleteTLSSubscription :
    list Call → DeleteTLSSubscriptionInput.t → option error
}.

(** ** Attribute values and the resource schema *)

(** The values of a [map[string]any] literal built by Read. *)
Inductive Any :=
| AString (s : string)
| AStrings (l : list string).

Inductive Value :=
| VString (s : string)
| VBool (b : bool)
| VStrings (l : list string)            (* a [[]string] handed to [d.Set] *)
| VSet (s : gset string)                (* a [*schema.Set] of strings *)
| VMap (m : gmap string string)         (* [map[string]string], nil is ∅ *)
| VObjects (l : list (gmap string Any)) (* [[]map[string]any] *).

#[global] Instance Any_eq_dec : EqDecision Any.
Proof. solve_decision. Defined.

#[global] Instance Value_eq_dec : EqDecision Value.
Proof. solve_decision. Defined.

Inductive ValueType := TypeBool | TypeString | TypeMap | TypeSet.
Inductive ElemKind := ElemNone | ElemString | ElemResource.

(** The [Schema] field of [resourceFastlyTLSSubscription]: type and
    element kind of every attribute. *)
Definition Schema : gmap string (ValueType * ElemKind) :=
  list_to_map [
    ("certificate_authority", (TypeString, ElemNone));
    ("certificate_id", (TypeString, ElemNone));
    ("common_name", (TypeString, ElemNone));
    ("configuration_id", (TypeString, ElemNone));
    ("created_at", (TypeString, ElemNone));
    ("domains", (TypeSet, ElemString));
    ("force_destroy", (TypeBool, ElemNone));
    ("force_update", (TypeBool, ElemNone));
    ("managed_dns_challenge", (TypeMap, ElemString));
    ("managed_dns_challenges", (TypeSet, ElemResource));
    ("managed_http_challenges", (TypeSet, ElemResource));
    ("state", (TypeString, ElemNone));
    ("updated_at", (TypeString, ElemNone))
  ].

(** The zero value the SDK returns for an attribute that is not set. *)
Definition zeroValue (key : string) : Value :=
  match Schema !! key with
  | Some (TypeBool, _) => VBool false
  | Some (TypeMap, _) => VMap ∅
  | Some (TypeSet, ElemResource) => VObjects []
  | Some (TypeSet, _) => VSet ∅
  | _ => VString ""
  end.

(** What the SDK's field writer stores for a value handed to [d.Set]; it
    refuses a value that does not fit the schema type of the key. *)
Definition writeField (ty : ValueType * ElemKind) (v : Value) : option Value :=
  match ty, v with
  | (TypeString, _), VString _ => Some v
  | (TypeBool, _), VBool _ => Some v
  | (TypeSet, ElemString), VStrings l => Some (VSet (list_to_set l))
  | (TypeSet, ElemString), VSet _ => Some v
  | (TypeSet, ElemResource), VObjects _ => Some v
  | (TypeMap, ElemString), VMap _ => Some v
  | _, _ => None
  end.

(** [*schema.ResourceData]: the identifier, the last-read state, the
    planned values (state merged with configuration and diff), and the
    values written by [d.Set] during the operation. *)
Record ResourceData := {
  Id : string;
  prior : gmap string Value;
  planned : gmap string Value;
  written : gmap string Value
}.

Definition valueAt (m : gmap string Value) (key : string) : Value :=
  default (zeroValue key) (m !! key).

(** [d.Get]: a written value shadows the planned one. *)
Definition Get (d : ResourceData) (key : string) : Value :=
  match written d !! key with
  | Some v => v
  | None => valueAt (planned d) key
  end.

(** The type assertions to [string], [bool] and a [schema.Set] applied to
    a value read from the SDK; the SDK returns values of the schema type,
    so the assertions do not fail. *)
Definition asString (v : Value) : string :=
  match v with VString s => s | _ => "" end.

Definition asBool (v : Value) : bool :=
  match v with VBool b => b | _ => false end.

Definition asSet (v : Value) : gset string :=
  match v with VSet s => s | _ => ∅ end.

Definition GetString (d : ResourceData) (key : string) : string :=
  asString (Get d key).

Definition GetBool (d : ResourceData) (key : string) : bool :=
  asBool (Get d key).

Definition GetSet (d : ResourceData) (key : string) : gset string :=
  asSet (Get d key).

(** The [List] method of [schema.Set] *)
Definition List_ (s : gset string) : list string := elements s.

(** [d.GetOk] on a string attribute: ok when the value is not the zero
    value. *)
Definition GetOkString (d : ResourceData) (key : string) : option string :=
  let s := GetString d key in
  if String.eqb s "" then None else Some s.

(** [d.HasChange] compares the last-read state with the planned value,
    [d.HasChanges] asks whether any of the keys changed. *)
Definition HasChange (d : ResourceData) (key : string) : bool :=
  negb (bool_decide (valueAt (prior d) key = valueAt (planned d) key)).

Definition HasChanges (d : ResourceData) (keys : list string) : bool :=
  existsb (HasChange d) keys.

Definition Set_ (d : ResourceData) (key : string) (v : Value)
  : ResourceData * option error :=
  match Schema !! key with
  | None => (d, Some (otherError ("Invalid address to set: " +:+ key)))
  | Some ty =>
      match writeField ty v with
      | Some v' =>
          ({| Id := Id d; prior := prior d; planned := planned d;
              written := <[key := v']> (written d) |}, None)
      | None => (d, Some (otherError (key +:+ ": value does not fit the schema")))
      end
  end.

Definition SetId (d : ResourceData) (id : string) : ResourceData :=
  {| Id := id; prior := prior d; planned := planned d; written := written d |}.

(** ** Handlers: state passing with early return and panic

    A handler runs on the resource data and on the record of the remote
    calls issued so far.  [Next] continues with a value, [Return] is a Go
    [return] of diagnostics from the handler, [Panic] a run-time panic. *)

Record World := { data : ResourceData; calls : list Call }.

Inductive Outcome (A : Type) :=
| Next (a : A) (w : World)
| Return (ds : Diagnostics) (w : World)
| Panic (msg : string) (w : World).

Arguments Next {A} a w.
Arguments Return {A} ds w.
Arguments Panic {A} msg w.

Definition Handler (A : Type) := World → Outcome A.

Definition ret {A} (a : A) : Handler A := fun w => Next a w.

Definition bind {A B} (m : Handler A) (k : A → Handler B) : Handler B :=
  fun w =>
    match m w with
    | Next a w' => k a w'
    | Return ds w' => Return ds w'
    | Panic msg w' => Panic msg w'
    end.

Notation "x <- m ;; k" := (bind m (fun x => k))
  (at level 20, m at level 99, k at level 200, only parsing).
Notation "m ;; k" := (bind m (fun _ => k))
  (at level 100, k at level 200, only parsing, right associativity).

Definition return_ {A} (ds : Diagnostics) : Handler A := fun w => Return ds w.
Definition panic {A} (msg : string) : Handler A := fun w => Panic msg w.

(** [if err != nil { return diag.FromErr(err) }] *)
Definition check (err : option error) : Handler unit :=
  match err with
  | Some e => return_ (diag_FromErr (Some e))
  | None => ret tt
  end.

(** Dereferencing a pointer and indexing a slice. *)
Definition deref {A} (p : option A) : Handler A :=
  match p with
  | Some x => ret x
  | None => panic "invalid memory address or nil pointer dereference"
  end.

Definition index {A} (l : list A) (i : nat) : Handler A :=
  match l !! i with
  | Some x => ret x
  | None => panic "index out of range"
  end.

(** Operations on [d]. *)
Definition d_Id : Handler string := fun w => Next (Id (data w)) w.

Definition d_SetId (id : string) : Handler unit :=
  fun w => Next tt {| data := SetId (data w) id; calls := calls w |}.

Definition d_GetString (key : string) : Handler string :=
  fun w => Next (GetString (data w) key) w.

Definition d_GetBool (key : string) : Handler bool :=
  fun w => Next (GetBool (data w) key) w.

Definition d_GetSet (key : string) : Handler (gset string) :=
  fun w => Next (GetSet (data w) key) w.

Definition d_GetOkString (key : string) : Handler (option string) :=
  fun w => Next (GetOkString (data w) key) w.

Definition d_HasChanges (keys : list string) : Handler bool :=
  fun w => Next (HasChanges (data w) keys) w.

Definition d_Set (key : string) (v : Value) : Handler (option error) :=
  fun w =>
    let (d', err) := Set_ (data w) key v in
    Next err {| data := d'; calls := calls w |}.

(** Remote calls: the answer depends on the calls made before, and the
    call is recorded. *)
Definition remote {I R} (method : list Call → I → R) (tag : I → Call) (i : I)
  : Handler R :=
  fun w => Next (method (calls w) i)
                {| data := data w; calls := calls w ++ [tag i] |}.

(** Modelled from the spec: the helper [contains] of the package is not
    part of the sources at hand; the spec has it decide whether the common
    name is a member of the domain set. *)
Definition contains (s : list string) (e : string) : bool :=
  bool_decide (e ∈ s).

Section Resource.

(** [t.Format(time.RFC3339)] of the Go standard library; a time is held
    as its Unix time. *)
Variable Format_RFC3339 : Z → string.

(** [strings.Map(unicode.ToLower, s)] of the Go standard library, which
    [strings.ToLower] falls back to when [s] is not pure ASCII. *)
Variable Map_unicode_ToLower : string → string.

(** ** CRUD handlers *)

(** The loop over [domain.Challenges] inside the loop over
    [subscription.Authorizations]; the two slices being built are passed
    along. *)
Fixpoint challengesLoop (cs : list TLSChallenge.t)
    (managedHTTPChallenges managedDNSChallenges : list (gmap string Any))
  : Handler (list (gmap string Any) * list (gmap string Any)) :=
  match cs with
  | [] => ret (managedHTTPChallenges, managedDNSChallenges)
  | challenge :: cs' =>
      if String.eqb (TLSChallenge.Type_ challenge) "managed-dns" then
        if (length (TLSChallenge.Values challenge) <? 1)%nat then
          return_ (diag_Errorf
            "fastly API returned no record values for Managed DNS Challenges")
        else
          v0 <- index (TLSChallenge.Values challenge) 0 ;;
          challengesLoop cs' managedHTTPChallenges
            (managedDNSChallenges ++ [
               {[ "record_type" := AString (TLSChallenge.RecordType challenge);
                  "record_name" := AString (TLSChallenge.RecordName challenge);
                  "record_value" := AString v0 ]} ])
      else
        challengesLoop cs'
          (managedHTTPChallenges ++ [
             {[ "record_type" := AString (TLSChallenge.RecordType challenge);
                "record_name" := AString (TLSChallenge.RecordName challenge);
                "record_values" := AStrings (TLSChallenge.Values challenge) ]} ])
          managedDNSChallenges
  end.

Fixpoint authorizationsLoop (auths : list TLSAuthorizations.t)
    (managedHTTPChallenges managedDNSChallenges : list (gmap string Any))
  : Handler (list (gmap string Any) * list (gmap string Any)) :=
  match auths with
  | [] => ret (managedHTTPChallenges, managedDNSChallenges)
  | domain :: auths' =>
      r <- challengesLoop (TLSAuthorizations.Challenges domain)
             managedHTTPChallenges managedDNSChallenges ;;
      authorizationsLoop auths' r.1 r.2
  end.

(** The loop of the backward-compatibility block over the challenges of
    the first authorization. *)
Fixpoint legacyLoop (cs : list TLSChallenge.t)
    (managedDNSChallengeOld : gmap string string)
  : Handler (gmap string string) :=
  match cs with
  | [] => ret managedDNSChallengeOld
  | challenge :: cs' =>
      if String.eqb (TLSChallenge.Type_ challenge) "managed-dns" then
        if (length (TLSChallenge.Values challenge) <? 1)%nat then
          return_ (diag_Errorf
            "fastly API returned no record values for Managed DNS Challenge")
        else
          v0 <- index (TLSChallenge.Values challenge) 0 ;;
          legacyLoop cs'
            {[ "record_type" := TLSChallenge.RecordType challenge;
               "record_name" := TLSChallenge.RecordName challenge;
               "record_value" := v0 ]}
      else legacyLoop cs' managedDNSChallengeOld
  end.

(** The loop over [tlsDomains] that looks for the latest configuration. *)
Fixpoint tlsDomainsLoop (tlsDomains : list TLSDomain.t) : Handler unit :=
  match tlsDomains with
  | [] => ret tt
  | tlsDomain :: rest =>
      match TLSDomain.Activations tlsDomain with
      | None => ret tt                                   (* break *)
      | Some acts =>
          let activations := length acts in
          if (0 <? activations)%nat then
            a <- index acts 0 ;;
            err <- d_Set "configuration_id"
                     (VString (TLSConfiguration.ID (TLSActivation.Configuration a))) ;;
            check err ;;
            ret tt                                       (* break *)
          else tlsDomainsLoop rest
      end
  end.

Definition notFoundWarning (id : string) : Diagnostics :=
  [ {| Severity_ := SeverityWarning;
       Summary := "TLS subscription (" +:+ id +:+ ") not found - removing from state";
       AttributePath := [id] |} ].

Definition resourceFastlyTLSSubscriptionRead (conn : Client) : Handler Empty_set :=
  id <- d_Id ;;
  r <- remote (GetTLSSubscription conn) CallGetTLSSubscription
         {| GetTLSSubscriptionInput.ID := id;
            GetTLSSubscriptionInput.Include := Some "tls_authorizations" |} ;;
  let subscription := r.1 in
  (* [if err, ok := ...]: this [err] shadows the error of the call in
     both branches of the [if] statement *)
  let (err, ok) := asHTTPError r.2 in
  if ok && IsNotFound err then
    id <- d_Id ;;
    d_SetId "" ;;
    return_ (notFoundWarning id)
  else
  match err with
  | Some (c, m) => return_ (diag_FromErr (Some (HTTPError c m)))
  | None =>
  subscription <- deref subscription ;;
  let domains := TLSDomain.ID <$> TLSSubscription.Domains subscription in
  certificateID <-
    (if (0 <? length (TLSSubscription.Certificates subscription))%nat then
       c <- index (TLSSubscription.Certificates subscription) 0 ;;
       ret (TLSSubscriptionCertificate.ID c)
     else ret "") ;;
  r <- authorizationsLoop (TLSSubscription.Authorizations subscription) [] [] ;;
  let managedHTTPChallenges := r.1 in
  let managedDNSChallenges := r.2 in
  first <- index (TLSSubscription.Authorizations subscription) 0 ;;
  managedDNSChallengeOld <- legacyLoop (TLSAuthorizations.Challenges first) ∅ ;;
  err <- d_Set "managed_dns_challenge" (VMap managedDNSChallengeOld) ;;
  check err ;;
  err <- d_Set "domains" (VStrings domains) ;;
  check err ;;
  err <- d_Set "common_name"
           (VString (TLSDomain.ID (TLSSubscription.CommonName subscription))) ;;
  check err ;;
  err <- d_Set "certificate_id" (VString certificateID) ;;
  check err ;;
  err <- d_Set "certificate_authority"
           (VString (TLSSubscription.CertificateAuthority subscription)) ;;
  check err ;;
  err <- d_Set "configuration_id"
           (VString (TLSConfiguration.ID (TLSSubscription.Configuration subscription))) ;;
  check err ;;
  r <- remote (ListTLSDomains conn) CallListTLSDomains
         {| ListTLSDomainsInput.FilterTLSCertificateID := certificateID;
            ListTLSDomainsInput.Include := "tls_activations";
            ListTLSDomainsInput.Sort := "tls_activations.created_at" |} ;;
  let tlsDomains := r.1 in                    (* the error is discarded *)
  tlsDomainsLoop tlsDomains ;;
  err <- d_Set "created_at"
           (VString (Format_RFC3339 (TLSSubscription.CreatedAt subscription))) ;;
  check err ;;
  err <- d_Set "updated_at"
           (VString (Format_RFC3339 (TLSSubscription.UpdatedAt subscription))) ;;
  check err ;;
  err <- d_Set "state" (VString (TLSSubscription.State subscription)) ;;
  check err ;;
  err <- d_Set "managed_dns_challenges" (VObjects managedDNSChallenges) ;;
  check err ;;
  err <- d_Set "managed_http_challenges" (VObjects managedHTTPChallenges) ;;
  check err ;;
  return_ []
  end.

Definition resourceFastlyTLSSubscriptionCreate (conn : Client) : Handler Empty_set :=
  v <- d_GetOkString "configuration_id" ;;
  let configuration := (fun v => {| TLSConfiguration.ID := v |}) <$> v in
  s <- d_GetSet "domains" ;;
  let domainStrings := List_ s in
  let domains := newTLSDomain <$> domainStrings in
  v <- d_GetOkString "common_name" ;;
  commonName <-
    match v with
    | Some v =>
        if negb (contains domainStrings v) then
          return_ (diag_Errorf
            ("domain specified as common_name (" +:+ v +:+
             ") must also be in domains (" +:+ fmt_list domainStrings +:+ ")"))
        else ret (Some (newTLSDomain v))
    | None => ret None
    end ;;
  ca <- d_GetString "certificate_authority" ;;
  r <- remote (CreateTLSSubscription conn) CallCreateTLSSubscription
         {| CreateTLSSubscriptionInput.CertificateAuthority := ca;
            CreateTLSSubscriptionInput.Configuration := configuration;
            CreateTLSSubscriptionInput.Domains := domains;
            CreateTLSSubscriptionInput.CommonName := commonName |} ;;
  check r.2 ;;
  subscription <- deref r.1 ;;
  d_SetId (TLSSubscription.ID subscription) ;;
  resourceFastlyTLSSubscriptionRead conn.

Definition resourceFastlyTLSSubscriptionUpdate (conn : Client) : Handler Empty_set :=
  changed <- d_HasChanges ["domains"; "common_name"] ;;
  (if changed : bool then
     s <- d_GetSet "domains" ;;
     let domains := newTLSDomain <$> List_ s in
     id <- d_Id ;;
     force <- d_GetBool "force_update" ;;
     commonName <- d_GetString "common_name" ;;
     configuration <- d_GetString "configuration_id" ;;
     let updates :=
       {| UpdateTLSSubscriptionInput.ID := id;
          UpdateTLSSubscriptionInput.Force := force;
          UpdateTLSSubscriptionInput.CommonName := Some (newTLSDomain commonName);
          UpdateTLSSubscriptionInput.Domains := domains;
          UpdateTLSSubscriptionInput.Configuration :=
            Some {| TLSConfiguration.ID := configuration |} |} in
     r <- remote (UpdateTLSSubscription conn) CallUpdateTLSSubscription updates ;;
     check r.2
   else ret tt) ;;
  resourceFastlyTLSSubscriptionRead conn.

Definition resourceFastlyTLSSubscriptionDelete (conn : Client) : Handler Empty_set :=
  id <- d_Id ;;
  force <- d_GetBool "force_destroy" ;;
  err <- remote (DeleteTLSSubscription conn) CallDeleteTLSSubscription
           {| DeleteTLSSubscriptionInput.ID := id;
              DeleteTLSSubscriptionInput.Force := force |} ;;
  return_ (diag_FromErr err).

(** ** Diff customization *)

(** [*schema.ResourceDiff]: the last-read state, the planned values, the
    keys flagged by [ForceNew] and the keys flagged by [SetNewComputed]. *)
Record ResourceDiff := {
  diffPrior : gmap string Value;
  diffPlanned : gmap string Value;
  forcedNewKeys : gset string;
  computedKeys : gset string
}.

(** [d.Get] on a diff: the planned value, the zero value for a key whose
    new value is not known yet. *)
Definition DiffGet (d : ResourceDiff) (key : string) : Value :=
  if bool_decide (key ∈ computedKeys d) then zeroValue key
  else valueAt (diffPlanned d) key.

Definition DiffHasChange (d : ResourceDiff) (key : string) : bool :=
  negb (bool_decide (valueAt (diffPrior d) key = DiffGet d key)).

(** [d.ForceNew]: refuses a key without a change or outside the schema. *)
Definition ForceNew (d : ResourceDiff) (key : string) : ResourceDiff * option error :=
  if negb (DiffHasChange d key) then
    (d, Some (otherError ("ForceNew: No changes for " +:+ key)))
  else
    match Schema !! key with
    | None => (d, Some (otherError ("ForceNew: " +:+ key +:+ " is not a valid key")))
    | Some _ =>
        ({| diffPrior := diffPrior d; diffPlanned := diffPlanned d;
            forcedNewKeys := {[ key ]} ∪ forcedNewKeys d;
            computedKeys := computedKeys d |}, None)
    end.

Definition SetNewComputed (d : ResourceDiff) (key : string) : ResourceDiff :=
  {| diffPrior := diffPrior d; diffPlanned := diffPlanned d;
     forcedNewKeys := forcedNewKeys d;
     computedKeys := {[ key ]} ∪ computedKeys d |}.

Definition CustomizeDiffFunc := ResourceDiff → ResourceDiff * option error.

(** [customdiff.ForceNewIf]: the error of [d.ForceNew] is dropped. *)
Definition ForceNewIf (key : string) (f : ResourceDiff → bool) : CustomizeDiffFunc :=
  fun d => if f d then ((ForceNew d key).1, None) else (d, None).

(** [customdiff.ValidateValue] *)
Definition ValidateValue (key : string) (f : Value → option error) : CustomizeDiffFunc :=
  fun d => (d, f (DiffGet d key)).

(** [customdiff.All]: runs every function in turn and collects the
    errors; the empty list is the nil error. *)
Fixpoint All (funcs : list CustomizeDiffFunc) (d : ResourceDiff)
  : ResourceDiff * list error :=
  match funcs with
  | [] => (d, [])
  | f :: funcs' =>
      let (d1, thisErr) := f d in
      let (d2, errs) := All funcs' d1 in
      (d2, match thisErr with Some e => e :: errs | None => errs end)
  end.

Definition resourceFastlyTLSSubscriptionIsStateImmutable (d : ResourceDiff) : bool :=
  let state := asString (DiffGet d "state") in
  negb (String.eqb state "issued") && negb (String.eqb state "pending").

Definition resourceFastlyTLSSubscriptionSetNewComputed : CustomizeDiffFunc :=
  fun d =>
    if DiffHasChange d "domains" then
      (SetNewComputed (SetNewComputed d "managed_dns_challenges")
         "managed_http_challenges", None)
    else (d, None).

(** [strings.ToLower] of the Go standard library: a string of ASCII bytes
    is returned as it is when it has no upper-case letter and with every
    letter A-Z moved to a-z otherwise; any other string goes through the
    Unicode mapping. *)
Definition isASCIIByte (c : Ascii.ascii) : bool := (Ascii.N_of_ascii c <? 128)%N.

Definition isUpperByte (c : Ascii.ascii) : bool :=
  ((65 <=? Ascii.N_of_ascii c) && (Ascii.N_of_ascii c <=? 90))%N.

Definition lowerByte (c : Ascii.ascii) : Ascii.ascii :=
  if isUpperByte c then Ascii.ascii_of_N (Ascii.N_of_ascii c + 32) else c.

Definition ToLower (s : string) : string :=
  let cs := String.list_ascii_of_string s in
  if forallb isASCIIByte cs then
    if negb (existsb isUpperByte cs) then s
    else String.string_of_list_ascii (lowerByte <$> cs)
  else Map_unicode_ToLower s.

(** The loop of [resourceFastlyTLSSubscriptionValidateDomains]; [all] is
    the whole list, printed in the error. *)
Fixpoint validateDomainsLoop (all l : list string) : option error :=
  match l with
  | [] => None
  | domain :: l' =>
      if negb (String.eqb domain (ToLower domain)) then
        Some (otherError
          ("tls subscription 'domains' must not contain uppercase letters: "
           +:+ fmt_list all))
      else validateDomainsLoop all l'
  end.

Definition resourceFastlyTLSSubscriptionValidateDomains (v : Value) : option error :=
  validateDomainsLoop (List_ (asSet v)) (List_ (asSet v)).

Definition resourceFastlyTLSSubscriptionValidateCommonName (v : Value) : option error :=
  if negb (String.eqb (asString v) (ToLower (asString v))) then
    Some (otherError
      ("tls subscription 'common_name' must not contain uppercase letters: "
       +:+ asString v))
  else None.

(** The [CustomizeDiff] field of [resourceFastlyTLSSubscription]. *)
Definition CustomizeDiff : ResourceDiff → ResourceDiff * list error :=
  All [
    ForceNewIf "configuration_id" resourceFastlyTLSSubscriptionIsStateImmutable;
    ForceNewIf "domains" resourceFastlyTLSSubscriptionIsStateImmutable;
    ForceNewIf "common_name" resourceFastlyTLSSubscriptionIsStateImmutable;
    ValidateValue "domains" resourceFastlyTLSSubscriptionValidateDomains;
    ValidateValue "common_name" resourceFastlyTLSSubscriptionValidateCommonName;
    resourceFastlyTLSSubscriptionSetNewComputed
  ].

(** ** Functions used to state the properties of the handlers *)

(** Two diffs that compare the same values: [ForceNew] and the other
    rules change only the flags. *)
Definition sameView (d d' : ResourceDiff) : Prop :=
  diffPrior d' = diffPrior d ∧ diffPlanned d' = diffPlanned d ∧
  computedKeys d' = computedKeys d.

Definition worldOf {A} (o : Outcome A) : World :=
  match o with Next _ w | Return _ w | Panic _ w => w end.

(** The world after a successful [d.Set] and after a remote call. *)
Definition store (w : World) (key : string) (v : Value) : World :=
  {| data := {| Id := Id (data w); prior := prior (data w);
                planned := planned (data w);
                written := <[key := v]> (written (data w)) |};
     calls := calls w |}.

Definition logged (w : World) (c : Call) : World :=
  {| data := data w; calls := calls w ++ [c] |}.

(** The two requests Read sends. *)
Definition getInput (id : string) : GetTLSSubscriptionInput.t :=
  {| GetTLSSubscriptionInput.ID := id;
     GetTLSSubscriptionInput.Include := Some "tls_authorizations" |}.

Definition certificateIDOf (sub : TLSSubscription.t) : string :=
  match TLSSubscription.Certificates sub with
  | c :: _ => TLSSubscriptionCertificate.ID c
  | [] => ""
  end.

Definition listInput (sub : TLSSubscription.t) : ListTLSDomainsInput.t :=
  {| ListTLSDomainsInput.FilterTLSCertificateID := certificateIDOf sub;
     ListTLSDomainsInput.Include := "tls_activations";
     ListTLSDomainsInput.Sort := "tls_activations.created_at" |}.

(** The requests Create and Update build from the resource data. *)
Definition createInput (d : ResourceData) : CreateTLSSubscriptionInput.t :=
  {| CreateTLSSubscriptionInput.CertificateAuthority :=
       GetString d "certificate_authority";
     CreateTLSSubscriptionInput.Configuration :=
       (fun v => {| TLSConfiguration.ID := v |}) <$> GetOkString d "configuration_id";
     CreateTLSSubscriptionInput.Domains :=
       newTLSDomain <$> List_ (GetSet d "domains");
     CreateTLSSubscriptionInput.CommonName :=
       newTLSDomain <$> GetOkString d "common_name" |}.

Definition updateInput (d : ResourceData) : UpdateTLSSubscriptionInput.t :=
  {| UpdateTLSSubscriptionInput.ID := Id d;
     UpdateTLSSubscriptionInput.Force := GetBool d "force_update";
     UpdateTLSSubscriptionInput.CommonName :=
       Some (newTLSDomain (GetString d "common_name"));
     UpdateTLSSubscriptionInput.Domains :=
       newTLSDomain <$> List_ (GetSet d "domains");
     UpdateTLSSubscriptionInput.Configuration :=
       Some {| TLSConfiguration.ID := GetString d "configuration_id" |} |}.

(** The calls a handler added to the record it started from. *)
Definition newCalls {A} (w : World) (o : Outcome A) : list Call :=
  drop (length (calls w)) (calls (worldOf o)).

(** Challenges of a payload, in the order Read visits them. *)
Definition allChallenges (sub : TLSSubscription.t) : list TLSChallenge.t :=
  concat (TLSAuthorizations.Challenges <$> TLSSubscription.Authorizations sub).

Definition isDNS (c : TLSChallenge.t) : bool :=
  String.eqb (TLSChallenge.Type_ c) "managed-dns".

Definition dnsValuesMissing (cs : list TLSChallenge.t) : bool :=
  existsb (fun c => isDNS c && (length (TLSChallenge.Values c) <? 1)%nat) cs.

(** The entry of a DNS challenge holds one value, the entry of any other
    challenge holds the whole slice. *)
Definition dnsEntry (c : TLSChallenge.t) (v0 : string) : gmap string Any :=
  {[ "record_type" := AString (TLSChallenge.RecordType c);
     "record_name" := AString (TLSChallenge.RecordName c);
     "record_value" := AString v0 ]}.

Definition httpEntry (c : TLSChallenge.t) : gmap string Any :=
  {[ "record_type" := AString (TLSChallenge.RecordType c);
     "record_name" := AString (TLSChallenge.RecordName c);
     "record_values" := AStrings (TLSChallenge.Values c) ]}.

Definition dnsEntries (cs : list TLSChallenge.t) : list (gmap string Any) :=
  (fun c => dnsEntry c (default "" (head (TLSChallenge.Values c))))
    <$> List.filter isDNS cs.

Definition httpEntries (cs : list TLSChallenge.t) : list (gmap string Any) :=
  httpEntry <$> List.filter (fun c => negb (isDNS c)) cs.

Definition legacyEntry (c : TLSChallenge.t) (v0 : string) : gmap string string :=
  {[ "record_type" := TLSChallenge.RecordType c;
     "record_name" := TLSChallenge.RecordName c;
     "record_value" := v0 ]}.

(** The legacy map: the last DNS challenge of the list wins. *)
Definition legacyMap (cs : list TLSChallenge.t) (old : gmap string string)
  : gmap string string :=
  fold_left
    (fun old c =>
       if isDNS c then legacyEntry c (default "" (head (TLSChallenge.Values c)))
       else old)
    cs old.

(** What the search over the listed domains finds: it passes over a
    domain with an empty activation slice and stops at a nil one. *)
Fixpoint searchConfiguration (tlsDomains : list TLSDomain.t) : option string :=
  match tlsDomains with
  | [] => None
  | tlsDomain :: rest =>
      match TLSDomain.Activations tlsDomain with
      | None => None
      | Some [] => searchConfiguration rest
      | Some (a :: _) => Some (TLSConfiguration.ID (TLSActivation.Configuration a))
      end
  end.

(** In the words of the spec: the first activation of the first listed
    domain that has one or more activations. *)
Definition firstActivation (tlsDomains : list TLSDomain.t) : option TLSActivation.t :=
  head (concat ((fun d => default [] (TLSDomain.Activations d)) <$> tlsDomains)).

Definition hasActivation (d : TLSDomain.t) : bool :=
  match TLSDomain.Activations d with
  | Some (_ :: _) => true
  | _ => false
  end.

(** The attributes Read writes, in the order of its [d.Set] calls. *)
Definition readKeys : list string :=
  [ "managed_dns_challenge"; "domains"; "common_name"; "certificate_id";
    "certificate_authority"; "configuration_id"; "created_at"; "updated_at";
    "state"; "managed_dns_challenges"; "managed_http_challenges" ].

(** The world Read leaves behind when it returns without diagnostics. *)
Definition afterRead (sub : TLSSubscription.t) (tlsDomains : list TLSDomain.t)
    (w : World) : World :=
  let cs := allChallenges sub in
  let first := default [] (head (TLSAuthorizations.Challenges
                                   <$> TLSSubscription.Authorizations sub)) in
  let w1 := store w "managed_dns_challenge" (VMap (legacyMap first ∅)) in
  let w2 := store w1 "domains"
              (VSet (list_to_set (TLSDomain.ID <$> TLSSubscription.Domains sub))) in
  let w3 := store w2 "common_name"
              (VString (TLSDomain.ID (TLSSubscription.CommonName sub))) in
  let w4 := store w3 "certificate_id" (VString (certificateIDOf sub)) in
  let w5 := store w4 "certificate_authority"
              (VString (TLSSubscription.CertificateAuthority sub)) in
  let w6 := store w5 "configuration_id"
              (VString (TLSConfiguration.ID (TLSSubscription.Configuration sub))) in
  let w7 := logged w6 (CallListTLSDomains (listInput sub)) in
  let w8 := match searchConfiguration tlsDomains with
            | Some c => store w7 "configuration_id" (VString c)
            | None => w7
            end in
  let w9 := store w8 "created_at"
              (VString (Format_RFC3339 (TLSSubscription.CreatedAt sub))) in
  let w10 := store w9 "updated_at"
               (VString (Format_RFC3339 (TLSSubscription.UpdatedAt sub))) in
  let w11 := store w10 "state" (VString (TLSSubscription.State sub)) in
  let w12 := store w11 "managed_dns_challenges" (VObjects (dnsEntries cs)) in
  store w12 "managed_http_challenges" (VObjects (httpEntries cs)).

(** The client that answers like [conn] but never reports a failure of
    the domain listing. *)
Definition discardListError (conn : Client) : Client :=
  {| CreateTLSSubscription := CreateTLSSubscription conn;
     GetTLSSubscription := GetTLSSubscription conn;
     ListTLSDomains := fun h i => ((ListTLSDomains conn h i).1, None);
     UpdateTLSSubscription := UpdateTLSSubscription conn;
     DeleteTLSSubscription := DeleteTLSSubscription conn |}.

End Resource.

(** ** Sample payloads, clients and resource data *)

Definition sampleFormat (t : Z) : string := "2006-01-02T15:04:05Z".

Definition sampleChallenge (type_ : string) (values : list string) : TLSChallenge.t :=
  {| TLSChallenge.RecordName := "_acme-challenge.a.example.com";
     TLSChallenge.RecordType := "CNAME";
     TLSChallenge.Type_ := type_;
     TLSChallenge.Values := values |}.

Definition sampleAuthorizations : list TLSAuthorizations.t :=
  [ {| TLSAuthorizations.Challenges :=
         [ sampleChallenge "managed-dns" ["v1.fastly-validations.com";
                                          "v2.fastly-validations.com"];
           sampleChallenge "managed-http-cname" ["h1.fastly.net"; "h2.fastly.net"] ] |} ].

Definition sampleSubscription (auths : list TLSAuthorizations.t) : TLSSubscription.t :=
  {| TLSSubscription.Authorizations := auths;
     TLSSubscription.CertificateAuthority := "lets-encrypt";
     TLSSubscription.Certificates := [ {| TLSSubscriptionCertificate.ID := "cert1" |} ];
     TLSSubscription.CommonName := newTLSDomain "a.example.com";
     TLSSubscription.Configuration := {| TLSConfiguration.ID := "cfgA" |};
     TLSSubscription.CreatedAt := 0;
     TLSSubscription.Domains := [newTLSDomain "a.example.com"; newTLSDomain "b.example.com"];
     TLSSubscription.ID := "sub1";
     TLSSubscription.State := "issued";
     TLSSubscription.UpdatedAt := 0 |}.

Definition sampleActivation (configuration : string) : TLSActivation.t :=
  {| TLSActivation.Configuration := {| TLSConfiguration.ID := configuration |} |}.

Definition sampleDomain (id : string) (acts : option (list TLSActivation.t)) : TLSDomain.t :=
  {| TLSDomain.ID := id; TLSDomain.Activations := acts |}.

(** A client with fixed answers: [fetched] to every fetch, creation and
    update of a subscription (the latter two with the error [changeErr]),
    [listed] to every domain listing, [changeErr] to every deletion. *)
Definition sampleClient (fetched : option TLSSubscription.t * option error)
    (listed : list TLSDomain.t * option error) (changeErr : option error) : Client :=
  {| CreateTLSSubscription := fun _ _ => (fetched.1, changeErr);
     GetTLSSubscription := fun _ _ => fetched;
     ListTLSDomains := fun _ _ => listed;
     UpdateTLSSubscription := fun _ _ => (fetched.1, changeErr);
     DeleteTLSSubscription := fun _ _ => changeErr |}.

(** Resource data with a last-read state and a plan; [commonName] is the
    planned common name, the plan adds a second domain. *)
Definition sampleData (commonName : string) : ResourceData :=
  {| Id := "sub1";
     prior := {[ "domains" := VSet {[ "a.example.com" ]};
                 "common_name" := VString "a.example.com";
                 "configuration_id" := VString "cfgA";
                 "state" := VString "issued" ]};
     planned := {[ "domains" := VSet {[ "a.example.com"; "b.example.com" ]};
                   "common_name" := VString commonName;
                   "certificate_authority" := VString "lets-encrypt";
                   "configuration_id" := VString "cfgA";
                   "force_update" := VBool true;
                   "state" := VString "issued" ]};
     written := ∅ |}.

Definition sampleWorld (commonName : string) : World :=
  {| data := sampleData commonName; calls := [] |}.

(** A diff planned in the remote state [state]. *)
Definition sampleDiff (state : string) : ResourceDiff :=
  {| diffPrior := {[ "domains" := VSet {[ "a.example.com" ]};
                     "common_name" := VString "a.example.com";
                     "configuration_id" := VString "cfgA";
                     "state" := VString state ]};
     diffPlanned := {[ "domains" := VSet {[ "a.example.com"; "b.example.com" ]};
                       "common_name" := VString "a.example.com";
                       "configuration_id" := VString "cfgA";
                       "state" := VString state ]};
     forcedNewKeys := ∅;
     computedKeys := ∅ |}.

End fastly.

(* ===================================================================== *)
(** * Properties of package hashcode *)
(* ===================================================================== *)

Section HashcodeFacts.
Import hashcode.

Lemma uint32_lxor a b : uint32 a → uint32 b → uint32 (Z.lxor a b).
Proof.
  intros [Ha0 Ha] [Hb0 Hb]. split; [by apply Z.lxor_nonneg|].
  destruct (Z.eq_dec (Z.lxor a b) 0) as [->|Hne]; [done|].
  assert (0 < Z.lxor a b) by (pose proof (proj2 (Z.lxor_nonneg a b) (conj (fun _ => Hb0) (fun _ => Ha0))); lia).
  apply Z.log2_lt_pow2; [done|].
  pose proof (Z.log2_lxor a b Ha0 Hb0) as Hl.
  assert (Z.log2 a < 32).
  { destruct (Z.eq_dec a 0) as [->|]; [done|]. apply Z.log2_lt_pow2; lia. }
  assert (Z.log2 b < 32).
  { destruct (Z.eq_dec b 0) as [->|]; [done|]. apply Z.log2_lt_pow2; lia. }
  lia.
Qed.

Lemma uint32_shiftr a k : 0 ≤ k → uint32 a → uint32 (Z.shiftr a k).
Proof.
  intros Hk [Ha0 Ha]. rewrite Z.shiftr_div_pow2 by done.
  assert (0 < 2 ^ k) by (apply Z.pow_pos_nonneg; lia).
  split; [by apply Z.div_pos|].
  eapply Z.le_lt_trans; [|exact Ha]. apply Z.div_le_upper_bound; [done|nia].
Qed.

Lemma uint32_tableStep crc : uint32 crc → uint32 (tableStep IEEE crc).
Proof.
  intros H. unfold tableStep. case_match.
  - apply uint32_lxor; [by apply uint32_shiftr|]. by vm_compute.
  - by apply uint32_shiftr.
Qed.

Lemma uint32_simpleTable i : uint32 i → uint32 (simpleTable IEEE i).
Proof.
  intros H. unfold simpleTable. simpl. by do 8 apply uint32_tableStep.
Qed.

Lemma uint32_byte_index crc v :
  uint32 crc → 0 ≤ v < 256 → uint32 (Z.lxor (Z.land crc 0xff) v).
Proof.
  intros [Hc0 Hc] Hv. apply uint32_lxor; [|unfold uint32; lia].
  change 0xff with (Z.ones 8). rewrite Z.land_ones by lia.
  pose proof (Z.mod_pos_bound crc (2 ^ 8)). unfold uint32. lia.
Qed.

Lemma uint32_updateByte crc v :
  uint32 crc → 0 ≤ v < 256 → uint32 (updateByte IEEE crc v).
Proof.
  intros Hc Hv. unfold updateByte. apply uint32_lxor.
  - by apply uint32_simpleTable, uint32_byte_index.
  - by apply uint32_shiftr.
Qed.

Lemma uint32_fold p : ∀ crc,
  uint32 crc → Forall (λ v, 0 ≤ v < 256) p →
  uint32 (fold_left (updateByte IEEE) p crc).
Proof.
  induction p as [|v p IH]; intros crc Hc Hp; simpl; [done|].
  inversion_clear Hp. apply IH; [by apply uint32_updateByte | done].
Qed.

Lemma bytes_range s : Forall (λ v, 0 ≤ v < 256) (bytes s).
Proof.
  unfold bytes. apply Forall_fmap, Forall_forall. intros c _. simpl.
  pose proof (Ascii.N_ascii_bounded c). lia.
Qed.

Lemma uint32_ChecksumIEEE s : uint32 (ChecksumIEEE (bytes s)).
Proof.
  unfold ChecksumIEEE, simpleUpdate, uint32_not.
  apply uint32_lxor; [|by vm_compute].
  apply uint32_fold; [by vm_compute | apply bytes_range].
Qed.

(** The conversion of a [uint32] to [int] on either platform. *)
Lemma toInt_uint32_64 x : uint32 x → toInt Arch64 x = x.
Proof.
  intros [H0 H]. unfold toInt. change (intSize Arch64) with 64.
  rewrite Z.mod_small by lia. case_match; [done|].
  apply Z.ltb_ge in H1. lia.
Qed.

Lemma toInt_uint32_32 x :
  uint32 x → toInt Arch32 x = if x <? 2 ^ 31 then x else x - 2 ^ 32.
Proof.
  intros [H0 H]. unfold toInt. change (intSize Arch32) with 32.
  by rewrite Z.mod_small by lia.
Qed.

Lemma neg_32 v :
  - 2 ^ 31 ≤ v < 0 → neg Arch32 v = if v =? - 2 ^ 31 then - 2 ^ 31 else - v.
Proof.
  intros Hv. unfold neg, toInt. change (intSize Arch32) with 32.
  rewrite Z.mod_small by lia.
  destruct (Z.eqb_spec v (- 2 ^ 31)) as [->|Hne]; [done|].
  case_match; [done|]. apply Z.ltb_ge in H. lia.
Qed.

(** C10: on either platform the hash of every string is a non-negative
    [int]: it is the CRC-32 (IEEE) checksum read as a signed [int] [v],
    kept when [v] is not negative, negated when [v] is negative, and zero
    for the one value [MinInt] whose negation does not exist; the hash of
    "test" is one fixed non-negative number on each platform. *)
Theorem String_nonneg_crc32 (a : Arch) (s : string) :
  let v := toInt a (ChecksumIEEE (bytes s)) in
  0 ≤ ChecksumIEEE (bytes s) < 2 ^ 32 ∧
  MinInt a ≤ v ≤ MaxInt a ∧
  hashcode.String a s
    = (if v >=? 0 then v else if v =? MinInt a then 0 else - v) ∧
  0 ≤ hashcode.String a s ≤ MaxInt a ∧
  hashcode.String Arch64 "test" = 3632233996 ∧
  hashcode.String Arch32 "test" = 662733300.
Proof.
  pose proof (uint32_ChecksumIEEE s) as Hc.
  assert (Hv : MinInt a ≤ toInt a (ChecksumIEEE (bytes s)) ≤ MaxInt a ∧
          hashcode.String a s
          = (if toInt a (ChecksumIEEE (bytes s)) >=? 0
             then toInt a (ChecksumIEEE (bytes s))
             else if toInt a (ChecksumIEEE (bytes s)) =? MinInt a then 0
                  else - toInt a (ChecksumIEEE (bytes s)))).
  { unfold hashcode.String. destruct a.
    - rewrite toInt_uint32_32 by done.
      unfold MinInt, MaxInt. change (intSize Arch32) with 32.
      destruct Hc as [Hc0 Hc1].
      destruct (Z.ltb_spec (ChecksumIEEE (bytes s)) (2 ^ 31)) as [Hlt|Hge].
      + split; [lia|]. destruct (Z.geb_spec (ChecksumIEEE (bytes s)) 0); [done|lia].
      + split; [lia|].
        destruct (Z.geb_spec (ChecksumIEEE (bytes s) - 2 ^ 32) 0); [lia|].
        rewrite neg_32 by lia. change (32 - 1) with 31.
        destruct (Z.eqb_spec (ChecksumIEEE (bytes s) - 2 ^ 32) (- 2 ^ 31)) as [Heq|Hne].
        * reflexivity.
        * destruct (Z.geb_spec (- (ChecksumIEEE (bytes s) - 2 ^ 32)) 0); [done|lia].
    - rewrite toInt_uint32_64 by done.
      unfold MinInt, MaxInt. change (intSize Arch64) with 64.
      destruct Hc as [Hc0 Hc1]. split; [lia|].
      destruct (Z.geb_spec (ChecksumIEEE (bytes s)) 0); [done|lia]. }
  destruct Hv as [Hr He]. cbv zeta.
  assert (Hm : MaxInt a = - MinInt a - 1) by (by destruct a).
  split_and!; [apply Hc | apply Hc | apply Hr | apply Hr | exact He | | | | ].
  - rewrite He.
    destruct (Z.geb_spec (toInt a (ChecksumIEEE (bytes s))) 0); [lia|].
    destruct (Z.eqb_spec (toInt a (ChecksumIEEE (bytes s))) (MinInt a)); lia.
  - rewrite He.
    destruct (Z.geb_spec (toInt a (ChecksumIEEE (bytes s))) 0); [lia|].
    destruct (Z.eqb_spec (toInt a (ChecksumIEEE (bytes s))) (MinInt a)); lia.
  - by vm_compute.
  - by vm_compute.
Qed.

End HashcodeFacts.

(* ===================================================================== *)
(** * Properties of the TLS subscription resource *)
(* ===================================================================== *)

Section HandlerFacts.
Import fastly.
Local Open Scope string_scope.
Local Open Scope list_scope.

Variable Format_RFC3339 : Z → string.
Variable Map_unicode_ToLower : string → string.

Abbreviation Read := (resourceFastlyTLSSubscriptionRead Format_RFC3339).
Abbreviation Create := (resourceFastlyTLSSubscriptionCreate Format_RFC3339).
Abbreviation Update := (resourceFastlyTLSSubscriptionUpdate Format_RFC3339).
Abbreviation Delete := resourceFastlyTLSSubscriptionDelete.

(** *** The monad *)

Lemma bind_Next {A B} (m : Handler A) (k : A → Handler B) w a w' :
  m w = Next a w' → bind m k w = k a w'.
Proof. unfold bind. by intros ->. Qed.

Lemma bind_Return {A B} (m : Handler A) (k : A → Handler B) w ds w' :
  m w = Return ds w' → bind m k w = Return ds w'.
Proof. unfold bind. by intros ->. Qed.

Lemma bind_Panic {A B} (m : Handler A) (k : A → Handler B) w msg w' :
  m w = Panic msg w' → bind m k w = Panic msg w'.
Proof. unfold bind. by intros ->. Qed.

(** A [d.Set] of a value that fits the schema stores it and reports no
    error. *)
Lemma d_Set_fits key ty v v' w :
  Schema !! key = Some ty → writeField ty v = Some v' →
  d_Set key v w = Next None (store w key v').
Proof.
  intros Hs Hw. unfold d_Set, Set_. by rewrite Hs, Hw.
Qed.

Lemma set_checked {B} key ty v v' (k : Handler B) w :
  Schema !! key = Some ty → writeField ty v = Some v' →
  bind (d_Set key v) (fun err => bind (check err) (fun _ => k)) w
  = k (store w key v').
Proof.
  intros Hs Hw. by rewrite (bind_Next _ _ _ _ _ (d_Set_fits _ _ _ _ w Hs Hw)).
Qed.

(** *** The loops of Read *)

Lemma index_0 {A} (x : A) (l : list A) w : index (x :: l) 0 w = Next x w.
Proof. done. Qed.

Lemma challengesLoop_spec cs : ∀ http dns w,
  challengesLoop cs http dns w =
    if dnsValuesMissing cs then
      Return (diag_Errorf
        "fastly API returned no record values for Managed DNS Challenges") w
    else Next (http ++ httpEntries cs, dns ++ dnsEntries cs) w.
Proof.
  induction cs as [|c cs IH]; intros http dns w; simpl.
  - unfold httpEntries, dnsEntries. simpl. by rewrite !app_nil_r.
  - unfold dnsValuesMissing, httpEntries, dnsEntries in *. simpl.
    fold (isDNS c). destruct (isDNS c); simpl.
    + destruct (TLSChallenge.Values c) as [|v0 vs] eqn:Hv; simpl; [done|].
      unfold bind. simpl. rewrite IH.
      case_match; [done|]. by rewrite <- !app_assoc.
    + rewrite IH. case_match; [done|]. by rewrite <- !app_assoc.
Qed.

Lemma dnsValuesMissing_app cs1 cs2 :
  dnsValuesMissing (cs1 ++ cs2) = dnsValuesMissing cs1 || dnsValuesMissing cs2.
Proof. unfold dnsValuesMissing. apply existsb_app. Qed.

Lemma dnsEntries_app cs1 cs2 :
  dnsEntries (cs1 ++ cs2) = dnsEntries cs1 ++ dnsEntries cs2.
Proof. unfold dnsEntries. by rewrite List.filter_app, fmap_app. Qed.

Lemma httpEntries_app cs1 cs2 :
  httpEntries (cs1 ++ cs2) = httpEntries cs1 ++ httpEntries cs2.
Proof. unfold httpEntries. by rewrite List.filter_app, fmap_app. Qed.

Lemma authorizationsLoop_spec auths : ∀ http dns w,
  authorizationsLoop auths http dns w =
    let cs := concat (TLSAuthorizations.Challenges <$> auths) in
    if dnsValuesMissing cs then
      Return (diag_Errorf
        "fastly API returned no record values for Managed DNS Challenges") w
    else Next (http ++ httpEntries cs, dns ++ dnsEntries cs) w.
Proof.
  induction auths as [|a auths IH]; intros http dns w; simpl.
  - unfold httpEntries, dnsEntries. simpl. by rewrite !app_nil_r.
  - unfold bind. rewrite challengesLoop_spec.
    rewrite dnsValuesMissing_app, dnsEntries_app, httpEntries_app.
    destruct (dnsValuesMissing (TLSAuthorizations.Challenges a)); simpl; try done.
    rewrite IH. cbv zeta. simpl.
    destruct (dnsValuesMissing (concat _)); [done|]. by rewrite !app_assoc.
Qed.

Lemma legacyLoop_spec cs : ∀ old w,
  legacyLoop cs old w =
    if dnsValuesMissing cs then
      Return (diag_Errorf
        "fastly API returned no record values for Managed DNS Challenge") w
    else Next (legacyMap cs old) w.
Proof.
  induction cs as [|c cs IH]; intros old w; simpl; [done|].
  unfold dnsValuesMissing, legacyMap in *. simpl. fold (isDNS c).
  destruct (isDNS c); simpl.
  - destruct (TLSChallenge.Values c) as [|v0 vs] eqn:Hv; simpl; [done|].
    unfold bind. simpl. by rewrite IH.
  - by rewrite IH.
Qed.

Lemma tlsDomainsLoop_spec tlsDomains : ∀ w,
  tlsDomainsLoop tlsDomains w =
    Next tt match searchConfiguration tlsDomains with
            | Some c => store w "configuration_id" (VString c)
            | None => w
            end.
Proof.
  induction tlsDomains as [|d rest IH]; intros w; simpl; [done|].
  destruct (TLSDomain.Activations d) as [[|a acts]|]; simpl; [by rewrite IH| |done].
  unfold bind at 1. simpl.
  by erewrite set_checked by reflexivity.
Qed.


Lemma certificateID_step (sub : TLSSubscription.t) w :
  (if (0 <? length (TLSSubscription.Certificates sub))%nat
   then bind (index (TLSSubscription.Certificates sub) 0)
          (λ c, ret (TLSSubscriptionCertificate.ID c))
   else ret "") w = Next (certificateIDOf sub) w.
Proof.
  unfold certificateIDOf. by destruct (TLSSubscription.Certificates sub).
Qed.

Lemma dnsValuesMissing_first (a : TLSAuthorizations.t) auths :
  dnsValuesMissing (concat (TLSAuthorizations.Challenges <$> a :: auths)) = false →
  dnsValuesMissing (TLSAuthorizations.Challenges a) = false.
Proof.
  simpl. rewrite dnsValuesMissing_app. by intros [? _]%orb_false_iff.
Qed.

(** Read after a successful fetch: a DNS challenge without values ends it
    with a diagnostic, an empty list of authorizations with a panic, and
    otherwise it returns no diagnostics and leaves [afterRead]. *)
Lemma Read_fetched conn w sub err :
  GetTLSSubscription conn (calls w) (getInput (Id (data w))) = (Some sub, err) →
  asHTTPError err = (None, false) →
  Read conn w =
    let w0 := logged w (CallGetTLSSubscription (getInput (Id (data w)))) in
    if dnsValuesMissing (allChallenges sub) then
      Return (diag_Errorf
        "fastly API returned no record values for Managed DNS Challenges") w0
    else
      match TLSSubscription.Authorizations sub with
      | [] => Panic "index out of range" w0
      | _ :: _ =>
          Return [] (afterRead Format_RFC3339 sub
                       (ListTLSDomains conn (calls w0) (listInput sub)).1 w0)
      end.
Proof.
  intros HGet Herr. unfold resourceFastlyTLSSubscriptionRead.
  unfold bind at 1. unfold d_Id at 1. unfold bind at 1. unfold remote at 1.
  fold (getInput (Id (data w))). rewrite HGet. cbn [fst snd].
  rewrite Herr. cbn [andb].
  fold (logged w (CallGetTLSSubscription (getInput (Id (data w))))).
  set (w0 := logged w _).
  unfold bind at 1. unfold deref at 1, ret at 1.
  rewrite (bind_Next _ _ _ _ _ (certificateID_step sub w0)).
  unfold bind at 1. rewrite authorizationsLoop_spec. cbv zeta.
  fold (allChallenges sub). destruct (dnsValuesMissing (allChallenges sub)) eqn:Hm; [done|].
  cbn [fst snd app].
  destruct (TLSSubscription.Authorizations sub) as [|first auths] eqn:Ha; [done|].
  unfold bind at 1. rewrite index_0.
  unfold bind at 1. rewrite legacyLoop_spec.
  unfold allChallenges in Hm. rewrite Ha in Hm.
  rewrite (dnsValuesMissing_first _ _ Hm).
  do 6 (erewrite set_checked by reflexivity).
  unfold bind at 1. unfold remote at 1.
  unfold bind at 1. rewrite tlsDomainsLoop_spec.
  do 5 (erewrite set_checked by reflexivity).
  unfold return_, afterRead. cbv zeta. unfold allChallenges. rewrite Ha.
  reflexivity.
Qed.

(** What Read leaves in the state. *)
Lemma afterRead_calls sub l w :
  calls (afterRead Format_RFC3339 sub l w)
  = calls w ++ [CallListTLSDomains (listInput sub)].
Proof. unfold afterRead. cbv zeta. by destruct (searchConfiguration l). Qed.

Lemma afterRead_configuration_id sub l w :
  Get (data (afterRead Format_RFC3339 sub l w)) "configuration_id"
  = VString (default (TLSConfiguration.ID (TLSSubscription.Configuration sub))
               (searchConfiguration l)).
Proof.
  unfold afterRead, Get. cbv zeta.
  destruct (searchConfiguration l); simpl; by simplify_map_eq.
Qed.

Lemma afterRead_managed_dns_challenges sub l w :
  Get (data (afterRead Format_RFC3339 sub l w)) "managed_dns_challenges"
  = VObjects (dnsEntries (allChallenges sub)).
Proof.
  unfold afterRead, Get. cbv zeta.
  destruct (searchConfiguration l); simpl; by simplify_map_eq.
Qed.

Lemma afterRead_managed_http_challenges sub l w :
  Get (data (afterRead Format_RFC3339 sub l w)) "managed_http_challenges"
  = VObjects (httpEntries (allChallenges sub)).
Proof.
  unfold afterRead, Get. cbv zeta.
  destruct (searchConfiguration l); simpl; by simplify_map_eq.
Qed.

(** The other answers to the fetch. *)
Lemma Read_not_found conn w sub c m :
  GetTLSSubscription conn (calls w) (getInput (Id (data w)))
    = (sub, Some (HTTPError c m)) →
  c = 404%Z →
  Read conn w =
    Return (notFoundWarning (Id (data w)))
      {| data := SetId (data w) "";
         calls := calls w ++ [CallGetTLSSubscription (getInput (Id (data w)))] |}.
Proof.
  intros HGet ->. unfold resourceFastlyTLSSubscriptionRead.
  unfold bind at 1. unfold d_Id at 1. unfold bind at 1. unfold remote at 1.
  fold (getInput (Id (data w))). by rewrite HGet.
Qed.

Lemma Read_http_error conn w sub c m :
  GetTLSSubscription conn (calls w) (getInput (Id (data w)))
    = (sub, Some (HTTPError c m)) →
  c ≠ 404%Z →
  Read conn w =
    Return (diag_Errorf m)
      (logged w (CallGetTLSSubscription (getInput (Id (data w))))).
Proof.
  intros HGet Hc. unfold resourceFastlyTLSSubscriptionRead.
  unfold bind at 1. unfold d_Id at 1. unfold bind at 1. unfold remote at 1.
  fold (getInput (Id (data w))). rewrite HGet. cbn [fst snd asHTTPError IsNotFound andb].
  by apply Z.eqb_neq in Hc as ->.
Qed.

(** A failure of the fetch that is not an [HTTPError] is not seen by the
    test of the shadowing [err]; the nil subscription is dereferenced. *)
Lemma Read_nil_subscription conn w err :
  GetTLSSubscription conn (calls w) (getInput (Id (data w))) = (None, err) →
  asHTTPError err = (None, false) →
  Read conn w =
    Panic "invalid memory address or nil pointer dereference"
      (logged w (CallGetTLSSubscription (getInput (Id (data w))))).
Proof.
  intros HGet Herr. unfold resourceFastlyTLSSubscriptionRead.
  unfold bind at 1. unfold d_Id at 1. unfold bind at 1. unfold remote at 1.
  fold (getInput (Id (data w))). rewrite HGet. cbn [fst snd].
  by rewrite Herr.
Qed.

Lemma asHTTPError_cases err :
  (∃ c m, err = Some (HTTPError c m)) ∨ asHTTPError err = (None, false).
Proof. destruct err as [[c m|m]|]; eauto. Qed.

(** Read sends the fetch first, then at most the domain listing; it never
    sends an update. *)
Lemma Read_calls conn w :
  ∃ l, calls (worldOf (Read conn w))
       = calls w ++ CallGetTLSSubscription (getInput (Id (data w))) :: l
     ∧ existsb isUpdateCall l = false.
Proof.
  destruct (GetTLSSubscription conn (calls w) (getInput (Id (data w))))
    as [sub err] eqn:HGet.
  destruct (asHTTPError_cases err) as [(c & m & ->)|Herr].
  - destruct (Z.eq_dec c 404) as [Hc|Hc].
    + rewrite (Read_not_found _ _ _ _ _ HGet Hc). by exists [].
    + rewrite (Read_http_error _ _ _ _ _ HGet Hc). by exists [].
  - destruct sub as [sub|].
    + rewrite (Read_fetched _ _ _ _ HGet Herr). cbv zeta.
      destruct (dnsValuesMissing (allChallenges sub)); [by exists []|].
      destruct (TLSSubscription.Authorizations sub); [by exists []|].
      exists [CallListTLSDomains (listInput sub)]. split; [|done].
      cbn [worldOf]. rewrite afterRead_calls. cbn [logged calls]. by rewrite <- app_assoc.
    + rewrite (Read_nil_subscription _ _ _ HGet Herr). by exists [].
Qed.


Lemma afterRead_managed_dns_challenge sub l w :
  Get (data (afterRead Format_RFC3339 sub l w)) "managed_dns_challenge"
  = VMap (legacyMap
            (default [] (head (TLSAuthorizations.Challenges
                                 <$> TLSSubscription.Authorizations sub))) ∅).
Proof.
  unfold afterRead, Get. cbv zeta.
  destruct (searchConfiguration l); simpl; by simplify_map_eq.
Qed.

(** *** The search for the latest configuration *)

Lemma searchConfiguration_skips_empty pre rest :
  Forall (λ d, TLSDomain.Activations d = Some []) pre →
  searchConfiguration (pre ++ rest) = searchConfiguration rest.
Proof.
  induction 1 as [|d pre Hd _ IH]; simpl; [done|]. by rewrite Hd.
Qed.

Lemma firstActivation_skips_empty pre rest :
  Forall (λ d, TLSDomain.Activations d = Some []) pre →
  firstActivation (pre ++ rest) = firstActivation rest.
Proof.
  unfold firstActivation.
  induction 1 as [|d pre Hd _ IH]; simpl; [done|]. by rewrite Hd.
Qed.

Lemma searchConfiguration_no_activation l :
  Forall (λ d, hasActivation d = false) l → searchConfiguration l = None.
Proof.
  induction 1 as [|d l Hd _ IH]; simpl; [done|].
  unfold hasActivation in Hd. by destruct (TLSDomain.Activations d) as [[|??]|].
Qed.





(** *** Create, Update and Delete *)

Lemma Create_rejected conn w v :
  GetOkString (data w) "common_name" = Some v →
  v ∉ GetSet (data w) "domains" →
  Create conn w =
    Return (diag_Errorf
      ("domain specified as common_name (" +:+ v +:+
       ") must also be in domains (" +:+
       fmt_list (List_ (GetSet (data w) "domains")) +:+ ")")) w.
Proof.
  intros Hv Hnot. unfold resourceFastlyTLSSubscriptionCreate.
  cbn [bind d_GetOkString d_GetSet d_GetString ret remote fst snd].
  rewrite Hv. unfold contains, List_.
  rewrite bool_decide_eq_false_2; [done|]. by rewrite elem_of_elements.
Qed.

Lemma Create_sent conn w :
  (GetOkString (data w) "common_name" = None ∨
   ∃ v, GetOkString (data w) "common_name" = Some v ∧ v ∈ GetSet (data w) "domains") →
  Create conn w =
    let w1 := logged w (CallCreateTLSSubscription (createInput (data w))) in
    match CreateTLSSubscription conn (calls w) (createInput (data w)) with
    | (_, Some e) => Return (diag_FromErr (Some e)) w1
    | (None, None) =>
        Panic "invalid memory address or nil pointer dereference" w1
    | (Some subscription, None) =>
        Read conn {| data := SetId (data w1) (TLSSubscription.ID subscription);
                     calls := calls w1 |}
    end.
Proof.
  intros H. unfold resourceFastlyTLSSubscriptionCreate.
  cbn [bind d_GetOkString d_GetSet d_GetString ret remote fst snd].
  unfold createInput.
  assert (Hc : match GetOkString (data w) "common_name" with
    | Some v =>
        if negb (contains (List_ (GetSet (data w) "domains")) v)
        then
         return_
           (diag_Errorf
              ("domain specified as common_name (" +:+
               v +:+
               ") must also be in domains (" +:+
               fmt_list (List_ (GetSet (data w) "domains")) +:+ ")"))
        else ret (Some (newTLSDomain v))
    | None => ret None
    end w = Next (newTLSDomain <$> GetOkString (data w) "common_name") w).
  { destruct H as [->|(v & -> & Hin)]; [done|].
    unfold contains, List_.
    rewrite bool_decide_eq_true_2; [done|]. by rewrite elem_of_elements. }
  rewrite (bind_Next _ _ _ _ _ Hc).
  cbn [bind d_GetOkString d_GetSet d_GetString ret remote fst snd].
  fold (logged w (CallCreateTLSSubscription (createInput (data w)))).
  unfold createInput.
  destruct (CreateTLSSubscription conn (calls w) _) as [[subscription|] [e|]]; done.
Qed.

Lemma Update_unchanged conn w :
  HasChanges (data w) ["domains"; "common_name"] = false →
  Update conn w = Read conn w.
Proof.
  intros H. unfold resourceFastlyTLSSubscriptionUpdate.
  cbn [bind d_HasChanges]. by rewrite H.
Qed.

Lemma Update_changed conn w :
  HasChanges (data w) ["domains"; "common_name"] = true →
  Update conn w =
    let w1 := logged w (CallUpdateTLSSubscription (updateInput (data w))) in
    match (UpdateTLSSubscription conn (calls w) (updateInput (data w))).2 with
    | Some e => Return (diag_FromErr (Some e)) w1
    | None => Read conn w1
    end.
Proof.
  intros H. unfold resourceFastlyTLSSubscriptionUpdate.
  cbn [bind d_HasChanges]. rewrite H.
  unfold bind, d_GetSet, d_Id, d_GetBool, d_GetString, remote.
  fold (updateInput (data w)).
  fold (logged w (CallUpdateTLSSubscription (updateInput (data w)))).
  by destruct (UpdateTLSSubscription conn (calls w) (updateInput (data w))).2.
Qed.


Lemma newCalls_app {A} w (o : Outcome A) l :
  calls (worldOf o) = calls w ++ l → newCalls w o = l.
Proof. unfold newCalls. intros ->. by rewrite drop_app_length. Qed.

Lemma HasError_FromErr e : HasError (diag_FromErr (Some e)) = true.
Proof. done. Qed.

(** C7: a common name that is supplied and is not in the domain set
    makes Create return an error diagnostic with the world untouched, so
    without any remote call; with no common name, or one from the domain
    set, the first thing Create does to the world is the create call,
    carrying the domain set and the common name. *)
Theorem Create_checks_common_name conn w :
  (∀ v, GetOkString (data w) "common_name" = Some v →
        v ∉ GetSet (data w) "domains" →
        ∃ ds, Create conn w = Return ds w ∧ HasError ds = true ∧
              newCalls w (Create conn w) = []) ∧
  ((GetOkString (data w) "common_name" = None ∨
    ∃ v, GetOkString (data w) "common_name" = Some v ∧
         v ∈ GetSet (data w) "domains") →
   ∃ l, newCalls w (Create conn w)
        = CallCreateTLSSubscription (createInput (data w)) :: l).
Proof.
  split.
  - intros v Hv Hnot. rewrite (Create_rejected _ _ _ Hv Hnot).
    eexists. split_and!; [reflexivity|done|].
    apply newCalls_app. cbn [worldOf]. by rewrite app_nil_r.
  - intros H. rewrite (Create_sent _ _ H). cbv zeta.
    destruct (CreateTLSSubscription conn (calls w) (createInput (data w)))
      as [[subscription|] [e|]];
      try (exists []; by apply newCalls_app).
    match goal with |- context [Read conn ?w2] =>
      destruct (Read_calls conn w2) as (l & Hl & _) end.
    eexists. apply newCalls_app. rewrite Hl. cbn [calls logged].
    by rewrite <- app_assoc.
Qed.

(** C4 (amended): Update sends the update call exactly when the domain
    set or the common name differs from the last-read state; the request
    carries the whole domain set, the common name and the configuration
    ID; without a change Update is a Read, after an update call that
    succeeds it goes on as a Read, and after one that fails it returns
    the failure as an error diagnostic without reading. *)
Theorem Update_calls_remote_iff_changed conn w :
  let changed := HasChanges (data w) ["domains"; "common_name"] in
  let updates := updateInput (data w) in
  let w1 := logged w (CallUpdateTLSSubscription updates) in
  existsb isUpdateCall (newCalls w (Update conn w)) = changed ∧
  (changed = false → Update conn w = Read conn w) ∧
  (changed = true →
     (∃ l, newCalls w (Update conn w) = CallUpdateTLSSubscription updates :: l) ∧
     (∀ x, x ∈ GetSet (data w) "domains"
           ↔ newTLSDomain x ∈ UpdateTLSSubscriptionInput.Domains updates) ∧
     UpdateTLSSubscriptionInput.CommonName updates
       = Some (newTLSDomain (GetString (data w) "common_name")) ∧
     UpdateTLSSubscriptionInput.Configuration updates
       = Some {| TLSConfiguration.ID := GetString (data w) "configuration_id" |} ∧
     match (UpdateTLSSubscription conn (calls w) updates).2 with
     | None => Update conn w = Read conn w1
     | Some e =>
         Update conn w = Return (diag_FromErr (Some e)) w1 ∧
         HasError (diag_FromErr (Some e)) = true
     end).
Proof.
  cbv zeta.
  assert (Hsent : HasChanges (data w) ["domains"; "common_name"] = true →
    ∃ l, newCalls w (Update conn w)
         = CallUpdateTLSSubscription (updateInput (data w)) :: l).
  { intros H. rewrite (Update_changed _ _ H). cbv zeta.
    destruct (UpdateTLSSubscription conn (calls w) (updateInput (data w))).2.
    - exists []. by apply newCalls_app.
    - match goal with |- context [Read conn ?w2] =>
        destruct (Read_calls conn w2) as (l & Hl & _) end.
      eexists. apply newCalls_app. rewrite Hl. cbn [calls logged].
      by rewrite <- app_assoc. }
  split_and!.
  - destruct (HasChanges (data w) ["domains"; "common_name"]) eqn:H.
    + destruct (Hsent eq_refl) as [l ->]. done.
    + rewrite (Update_unchanged _ _ H).
      destruct (Read_calls conn w) as (l & Hl & Hno).
      by rewrite (newCalls_app _ _ _ Hl).
  - apply Update_unchanged.
  - intros H. split_and!; [by apply Hsent| |done|done|].
    + intros x. unfold updateInput, List_. cbn [UpdateTLSSubscriptionInput.Domains].
      rewrite list_elem_of_fmap. split.
      * intros Hx. exists x. by rewrite elem_of_elements.
      * intros (y & Hy & Hin). injection Hy as ->. by apply elem_of_elements.
    + rewrite (Update_changed _ _ H). cbv zeta.
      by destruct (UpdateTLSSubscription conn (calls w) (updateInput (data w))).2.
Qed.

(** C2 (amended): a failure of the create, update or delete call, and a
    failure of the fetch that the client reports as an HTTP error other
    than not-found, comes back as an error diagnostic right after the
    failed call; a failure of the domain listing is discarded: Read goes
    on exactly as if the listing had reported none. *)
Theorem remote_failures_abort_except_listing conn w :
  (∀ sub c m,
     GetTLSSubscription conn (calls w) (getInput (Id (data w)))
       = (sub, Some (HTTPError c m)) →
     c ≠ 404%Z →
     Read conn w =
       Return (diag_FromErr (Some (HTTPError c m)))
         (logged w (CallGetTLSSubscription (getInput (Id (data w)))))) ∧
  (∀ e,
     (GetOkString (data w) "common_name" = None ∨
      ∃ v, GetOkString (data w) "common_name" = Some v ∧
           v ∈ GetSet (data w) "domains") →
     (CreateTLSSubscription conn (calls w) (createInput (data w))).2 = Some e →
     Create conn w =
       Return (diag_FromErr (Some e))
         (logged w (CallCreateTLSSubscription (createInput (data w))))) ∧
  (∀ e,
     HasChanges (data w) ["domains"; "common_name"] = true →
     (UpdateTLSSubscription conn (calls w) (updateInput (data w))).2 = Some e →
     Update conn w =
       Return (diag_FromErr (Some e))
         (logged w (CallUpdateTLSSubscription (updateInput (data w))))) ∧
  (∀ e i,
     i = {| DeleteTLSSubscriptionInput.ID := Id (data w);
            DeleteTLSSubscriptionInput.Force := GetBool (data w) "force_destroy" |} →
     DeleteTLSSubscription conn (calls w) i = Some e →
     Delete conn w =
       Return (diag_FromErr (Some e)) (logged w (CallDeleteTLSSubscription i))) ∧
  (∀ e, HasError (diag_FromErr (Some e)) = true) ∧
  Read conn w = Read (discardListError conn) w.
Proof.
  split_and!.
  - intros sub c m HGet Hc. by rewrite (Read_http_error _ _ _ _ _ HGet Hc).
  - intros e Hcn He. rewrite (Create_sent _ _ Hcn). cbv zeta.
    destruct (CreateTLSSubscription conn (calls w) (createInput (data w)))
      as [sub err]. simpl in He. subst err. by destruct sub.
  - intros e H He. rewrite (Update_changed _ _ H). cbv zeta. by rewrite He.
  - intros e i -> He. unfold resourceFastlyTLSSubscriptionDelete.
    unfold bind, d_Id, d_GetBool, remote. by rewrite He.
  - done.
  - reflexivity.
Qed.


(** *** The partition of the challenges *)

Lemma isDNS_true c : isDNS c = true ↔ TLSChallenge.Type_ c = "managed-dns".
Proof. unfold isDNS. apply String.eqb_eq. Qed.

Lemma isDNS_false c : isDNS c = false ↔ TLSChallenge.Type_ c ≠ "managed-dns".
Proof. unfold isDNS. apply String.eqb_neq. Qed.

Lemma dnsValuesMissing_true cs :
  dnsValuesMissing cs = true ↔
  ∃ c, c ∈ cs ∧ TLSChallenge.Type_ c = "managed-dns" ∧ TLSChallenge.Values c = [].
Proof.
  unfold dnsValuesMissing. rewrite existsb_exists. split.
  - intros (c & Hin & [Hd Hl]%andb_true_iff). exists c.
    rewrite list_elem_of_In, <- isDNS_true. split_and!; [done..|].
    by destruct (TLSChallenge.Values c).
  - intros (c & Hin & Hd & Hv). exists c.
    rewrite <- list_elem_of_In. split; [done|].
    apply andb_true_iff. rewrite isDNS_true, Hv. done.
Qed.

Lemma dnsValuesMissing_false cs :
  dnsValuesMissing cs = false ↔
  ∀ c, c ∈ cs → TLSChallenge.Type_ c = "managed-dns" → TLSChallenge.Values c ≠ [].
Proof.
  rewrite <- not_true_iff_false, dnsValuesMissing_true. split.
  - intros Hno c Hin Hd Hv. apply Hno. eauto.
  - intros Hall (c & Hin & Hd & Hv). by eapply Hall.
Qed.

Lemma dnsEntries_elem cs c v0 vs :
  c ∈ cs → TLSChallenge.Type_ c = "managed-dns" →
  TLSChallenge.Values c = v0 :: vs → dnsEntry c v0 ∈ dnsEntries cs.
Proof.
  intros Hin Hd Hv. unfold dnsEntries. apply list_elem_of_fmap.
  exists c. rewrite Hv. split; [done|].
  apply list_elem_of_In, filter_In. by rewrite <- list_elem_of_In, isDNS_true.
Qed.

Lemma httpEntries_elem cs c :
  c ∈ cs → TLSChallenge.Type_ c ≠ "managed-dns" → httpEntry c ∈ httpEntries cs.
Proof.
  intros Hin Hd. unfold httpEntries. apply list_elem_of_fmap.
  exists c. split; [done|].
  apply list_elem_of_In, filter_In. rewrite <- list_elem_of_In.
  split; [done|]. apply negb_true_iff. by apply isDNS_false.
Qed.

Lemma dnsEntries_inv cs e :
  e ∈ dnsEntries cs →
  ∃ c, c ∈ cs ∧ TLSChallenge.Type_ c = "managed-dns" ∧
       e = dnsEntry c (default "" (head (TLSChallenge.Values c))).
Proof.
  unfold dnsEntries. intros (c & -> & Hin)%list_elem_of_fmap.
  apply list_elem_of_In, filter_In in Hin as [Hin Hd].
  exists c. by rewrite list_elem_of_In, <- isDNS_true.
Qed.

Lemma httpEntries_inv cs e :
  e ∈ httpEntries cs →
  ∃ c, c ∈ cs ∧ TLSChallenge.Type_ c ≠ "managed-dns" ∧ e = httpEntry c.
Proof.
  unfold httpEntries. intros (c & -> & Hin)%list_elem_of_fmap.
  apply list_elem_of_In, filter_In in Hin as [Hin Hd].
  exists c. rewrite list_elem_of_In, <- isDNS_false.
  by apply negb_true_iff in Hd.
Qed.



(** *** Diff customization *)

Abbreviation Customize := (CustomizeDiff Map_unicode_ToLower).

Lemma All_cons f fs d : (All (f :: fs) d).1 = (All fs (f d).1).1.
Proof. simpl. destruct (f d) as [d1 e]. simpl. by destruct (All fs d1). Qed.

Lemma sameView_HasChange d d' key :
  sameView d d' → DiffHasChange d' key = DiffHasChange d key.
Proof.
  intros (Hp & Hn & Hc). unfold DiffHasChange, DiffGet. by rewrite Hp, Hn, Hc.
Qed.

Lemma sameView_immutable d d' :
  sameView d d' →
  resourceFastlyTLSSubscriptionIsStateImmutable d'
  = resourceFastlyTLSSubscriptionIsStateImmutable d.
Proof.
  intros (Hp & Hn & Hc).
  unfold resourceFastlyTLSSubscriptionIsStateImmutable, DiffGet. by rewrite Hn, Hc.
Qed.

Lemma ForceNewIf_spec key f d :
  is_Some (Schema !! key) →
  sameView d (ForceNewIf key f d).1 ∧
  forcedNewKeys (ForceNewIf key f d).1
  = if f d && DiffHasChange d key then {[ key ]} ∪ forcedNewKeys d
    else forcedNewKeys d.
Proof.
  intros [ty Hty]. unfold ForceNewIf, ForceNew. rewrite Hty.
  destruct (f d); simpl; [|done].
  by destruct (DiffHasChange d key); simpl.
Qed.

Lemma CustomizeDiff_forcedNewKeys d :
  forcedNewKeys (Customize d).1 =
    if resourceFastlyTLSSubscriptionIsStateImmutable d then
      (if DiffHasChange d "common_name" then {[ "common_name" ]} else ∅) ∪
      ((if DiffHasChange d "domains" then {[ "domains" ]} else ∅) ∪
       ((if DiffHasChange d "configuration_id" then {[ "configuration_id" ]} else ∅) ∪
        forcedNewKeys d))
    else forcedNewKeys d.
Proof.
  unfold CustomizeDiff. rewrite !All_cons.
  destruct (ForceNewIf_spec "configuration_id"
              resourceFastlyTLSSubscriptionIsStateImmutable d) as [V1 F1]; [by eexists|].
  set (d1 := (ForceNewIf "configuration_id" _ d).1) in *.
  destruct (ForceNewIf_spec "domains"
              resourceFastlyTLSSubscriptionIsStateImmutable d1) as [V2 F2]; [by eexists|].
  set (d2 := (ForceNewIf "domains" _ d1).1) in *.
  destruct (ForceNewIf_spec "common_name"
              resourceFastlyTLSSubscriptionIsStateImmutable d2) as [V3 F3]; [by eexists|].
  set (d3 := (ForceNewIf "common_name" _ d2).1) in *.
  assert (V12 : sameView d d2).
  { destruct V1 as (?&?&?), V2 as (?&?&?). split_and!; congruence. }
  unfold ValidateValue at 1 2. cbn [fst All].
  assert (forcedNewKeys (resourceFastlyTLSSubscriptionSetNewComputed d3).1
          = forcedNewKeys d3) as ->.
  { unfold resourceFastlyTLSSubscriptionSetNewComputed.
    by destruct (DiffHasChange d3 "domains"). }
  rewrite F3, F2, F1.
  rewrite (sameView_immutable _ _ V12), (sameView_immutable _ _ V1).
  rewrite (sameView_HasChange _ _ _ V12), (sameView_HasChange _ _ _ V1).
  destruct (resourceFastlyTLSSubscriptionIsStateImmutable d); simpl; [|done].
  destruct (DiffHasChange d "common_name"), (DiffHasChange d "domains"),
    (DiffHasChange d "configuration_id");
    by rewrite ?(left_id_L ∅ (∪)).
Qed.

Lemma immutable_iff d :
  resourceFastlyTLSSubscriptionIsStateImmutable d = true ↔
  asString (DiffGet d "state") ≠ "issued" ∧ asString (DiffGet d "state") ≠ "pending".
Proof.
  unfold resourceFastlyTLSSubscriptionIsStateImmutable.
  by rewrite andb_true_iff, !negb_true_iff, !String.eqb_neq.
Qed.

(** C5: for a diff in which configuration_id, domains or common_name
    changes, the customization flags that key as forcing a new resource
    exactly when the state read last is neither "issued" nor "pending"; in
    the states "issued" and "pending" it flags nothing. *)
Theorem CustomizeDiff_forces_replacement d key :
  key ∈ ["configuration_id"; "domains"; "common_name"] →
  DiffHasChange d key = true →
  key ∉ forcedNewKeys d →
  (key ∈ forcedNewKeys (Customize d).1 ↔
     asString (DiffGet d "state") ≠ "issued" ∧
     asString (DiffGet d "state") ≠ "pending") ∧
  (asString (DiffGet d "state") = "issued" ∨
   asString (DiffGet d "state") = "pending" →
     forcedNewKeys (Customize d).1 = forcedNewKeys d).
Proof.
  intros Hkey Hch Hnot. rewrite CustomizeDiff_forcedNewKeys, <- immutable_iff.
  destruct (resourceFastlyTLSSubscriptionIsStateImmutable d) eqn:Him.
  - split.
    + split; [done|]. intros _.
      repeat (apply elem_of_cons in Hkey as [->|Hkey]); rewrite ?Hch;
        [|  |  | by apply elem_of_nil in Hkey].
      * do 2 (apply elem_of_union; right). apply elem_of_union; left.
        by apply elem_of_singleton.
      * apply elem_of_union; right. apply elem_of_union; left.
        by apply elem_of_singleton.
      * apply elem_of_union; left. by apply elem_of_singleton.
    + apply immutable_iff in Him as [H1 H2]. by intros [?|?].
  - split; [|done]. split; [done|discriminate].
Qed.


(** *** Validation of domains and common name *)

Abbreviation lower := (ToLower Map_unicode_ToLower).
Abbreviation ValidateDomains :=
  (resourceFastlyTLSSubscriptionValidateDomains Map_unicode_ToLower).
Abbreviation ValidateCommonName :=
  (resourceFastlyTLSSubscriptionValidateCommonName Map_unicode_ToLower).

Lemma validateDomainsLoop_None all l :
  validateDomainsLoop Map_unicode_ToLower all l = None ↔
  Forall (λ d, d = lower d) l.
Proof.
  induction l as [|d l IH]; simpl; [by split|].
  destruct (String.eqb_spec d (lower d)) as [Heq|Hne]; simpl.
  - rewrite IH. split; [by constructor|by inversion 1].
  - split; [done|]. by inversion 1.
Qed.

Lemma lowerByte_upper c : isUpperByte c = true → lowerByte c ≠ c.
Proof.
  intros Hu Heq. unfold lowerByte in Heq. rewrite Hu in Heq.
  unfold isUpperByte in Hu. apply andb_true_iff in Hu as [H1 H2].
  apply N.leb_le in H1, H2.
  apply (f_equal Ascii.N_of_ascii) in Heq.
  rewrite Ascii.N_ascii_embedding in Heq by lia. lia.
Qed.

Lemma fmap_fixed {A} (f : A → A) (l : list A) :
  f <$> l = l → ∀ x, x ∈ l → f x = x.
Proof.
  induction l as [|y l IH]; intros Heq x Hx; [by apply elem_of_nil in Hx|].
  injection Heq as Hy Hl. apply elem_of_cons in Hx as [->|Hx]; auto.
Qed.

(** On a string of ASCII bytes, [ToLower] changes the string exactly when
    it has a letter A-Z. *)
Lemma ToLower_ascii s :
  forallb isASCIIByte (String.list_ascii_of_string s) = true →
  (s = lower s ↔ existsb isUpperByte (String.list_ascii_of_string s) = false).
Proof.
  intros Ha. unfold ToLower. rewrite Ha.
  destruct (existsb isUpperByte (String.list_ascii_of_string s)) eqn:Hu; simpl.
  - split; [|done]. intros Heq. exfalso.
    apply existsb_exists in Hu as (c & Hin & Hc).
    apply (lowerByte_upper c Hc).
    apply (fmap_fixed lowerByte (String.list_ascii_of_string s));
      [|by apply list_elem_of_In].
    rewrite Heq at 2. by rewrite String.list_ascii_of_string_of_list_ascii.
  - done.
Qed.


End HandlerFacts.

(* ===================================================================== *)
(** * The properties on sample inputs *)
(* ===================================================================== *)

Section Samples.
Import fastly.
Local Open Scope string_scope.
Local Open Scope list_scope.

Abbreviation sub := (sampleSubscription sampleAuthorizations).
Abbreviation w := (sampleWorld "a.example.com").
Abbreviation fetchInput := (getInput "sub1").



(** C2, counterexample to the claim as stated: the domain listing fails,
    and Read returns no diagnostic at all. *)
Lemma Read_discards_listing_failure :
  let conn := sampleClient (Some sub, None)
                ([], Some (HTTPError 500 "listing failed")) None in
  (ListTLSDomains conn [CallGetTLSSubscription fetchInput] (listInput sub)).2
    = Some (HTTPError 500 "listing failed") ∧
  ∃ w', resourceFastlyTLSSubscriptionRead sampleFormat conn w = Return [] w' ∧
        calls w' = [CallGetTLSSubscription fetchInput;
                    CallListTLSDomains (listInput sub)] ∧
        HasError [] = false.
Proof.
  cbv zeta. split; [reflexivity|].
  eexists. split; [vm_compute; reflexivity|]. split; reflexivity.
Qed.

Lemma remote_failures_abort_except_listing_witness :
  let failing := sampleClient (Some sub, None) ([], None)
                   (Some (HTTPError 500 "update failed")) in
  let unavailable := sampleClient (None, Some (HTTPError 503 "unavailable"))
                       ([], None) None in
  resourceFastlyTLSSubscriptionUpdate sampleFormat failing w
    = Return (diag_Errorf "update failed")
        (logged w (CallUpdateTLSSubscription (updateInput (data w)))) ∧
  resourceFastlyTLSSubscriptionRead sampleFormat unavailable w
    = Return (diag_Errorf "unavailable")
        (logged w (CallGetTLSSubscription fetchInput)).
Proof.
  cbv zeta. split.
  - apply (proj1 (proj2 (proj2
      (remote_failures_abort_except_listing sampleFormat
         (sampleClient (Some sub, None) ([], None)
            (Some (HTTPError 500 "update failed"))) w)))
      (HTTPError 500 "update failed")).
    + vm_compute. reflexivity.
    + reflexivity.
  - apply (proj1
      (remote_failures_abort_except_listing sampleFormat
         (sampleClient (None, Some (HTTPError 503 "unavailable")) ([], None) None) w)
      None 503%Z "unavailable").
    + reflexivity.
    + lia.
Defined.


(** C4, counterexample to the claim as stated: the domains changed, the
    update call fails, and Update returns the failure without the fetch
    that every Read begins with. *)
Lemma Update_failed_call_returns_without_read :
  let conn := sampleClient (Some sub, None) ([], None)
                (Some (HTTPError 500 "update failed")) in
  HasChanges (data w) ["domains"; "common_name"] = true ∧
  resourceFastlyTLSSubscriptionUpdate sampleFormat conn w
    = Return (diag_Errorf "update failed")
        (logged w (CallUpdateTLSSubscription (updateInput (data w)))) ∧
  existsb isGetCall
    (newCalls w (resourceFastlyTLSSubscriptionUpdate sampleFormat conn w)) = false.
Proof.
  cbv zeta. split_and!; vm_compute; reflexivity.
Qed.

Lemma Update_calls_remote_iff_changed_witness :
  let conn := sampleClient (Some sub, None) ([], None) None in
  (∃ l, newCalls w (resourceFastlyTLSSubscriptionUpdate sampleFormat conn w)
        = CallUpdateTLSSubscription (updateInput (data w)) :: l) ∧
  resourceFastlyTLSSubscriptionUpdate sampleFormat conn w
  = resourceFastlyTLSSubscriptionRead sampleFormat conn
      (logged w (CallUpdateTLSSubscription (updateInput (data w)))).
Proof.
  cbv zeta.
  destruct (proj2 (proj2 (Update_calls_remote_iff_changed sampleFormat
              (sampleClient (Some sub, None) ([], None) None) w)))
    as (Hsent & _ & _ & _ & Hread).
  - vm_compute. reflexivity.
  - split; [exact Hsent | exact Hread].
Defined.

Lemma CustomizeDiff_forces_replacement_witness :
  "domains" ∈ forcedNewKeys (CustomizeDiff (fun s => s) (sampleDiff "processing")).1 ∧
  forcedNewKeys (CustomizeDiff (fun s => s) (sampleDiff "issued")).1 = ∅.
Proof.
  split.
  - apply (proj1 (CustomizeDiff_forces_replacement (fun s => s)
                    (sampleDiff "processing") "domains"
                    ltac:(right; left)
                    ltac:(vm_compute; reflexivity)
                    ltac:(apply not_elem_of_empty))).
    split; discriminate.
  - apply (proj2 (CustomizeDiff_forces_replacement (fun s => s)
                    (sampleDiff "issued") "domains"
                    ltac:(right; left)
                    ltac:(vm_compute; reflexivity)
                    ltac:(apply not_elem_of_empty))).
    left. reflexivity.
Defined.


Lemma Create_checks_common_name_witness :
  let conn := sampleClient (Some sub, None) ([], None) None in
  (∃ ds, resourceFastlyTLSSubscriptionCreate sampleFormat conn
           (sampleWorld "c.example.com") = Return ds (sampleWorld "c.example.com") ∧
         HasError ds = true ∧
         newCalls (sampleWorld "c.example.com")
           (resourceFastlyTLSSubscriptionCreate sampleFormat conn
              (sampleWorld "c.example.com")) = []) ∧
  (∃ l, newCalls w (resourceFastlyTLSSubscriptionCreate sampleFormat conn w)
        = CallCreateTLSSubscription (createInput (data w)) :: l).
Proof.
  cbv zeta. split.
  - apply (proj1 (Create_checks_common_name sampleFormat
                    (sampleClient (Some sub, None) ([], None) None)
                    (sampleWorld "c.example.com")) "c.example.com").
    + vm_compute. reflexivity.
    + apply (bool_decide_unpack _). vm_compute. reflexivity.
  - apply (proj2 (Create_checks_common_name sampleFormat
                    (sampleClient (Some sub, None) ([], None) None) w)).
    right. exists "a.example.com". split.
    + vm_compute. reflexivity.
    + apply (bool_decide_unpack _). vm_compute. reflexivity.
Defined.



End Samples.

(* ===================================================================== *)
(** * Further properties of package hashcode *)
(* ===================================================================== *)

Lemma append_assoc (s t u : string) :
  ((s +:+ t) +:+ u = s +:+ (t +:+ u))%string.
Proof.
  induction s as [|c s IH]; [reflexivity|].
  change (String.String c ((s +:+ t) +:+ u) = String.String c (s +:+ (t +:+ u)))%string.
  by rewrite IH.
Qed.

Section HashcodePlatforms.
Import hashcode.

(** X1: with a 64-bit [int] the hash is the checksum itself; with a
    32-bit [int] it is the checksum below 2^31, zero at 2^31 and 2^32
    minus the checksum above; so the two platforms agree on a string
    exactly when its checksum is below 2^31. *)
Theorem String_platform_dependence (s : string) :
  hashcode.String Arch64 s = ChecksumIEEE (bytes s) ∧
  hashcode.String Arch32 s
    = (if ChecksumIEEE (bytes s) <? 2 ^ 31 then ChecksumIEEE (bytes s)
       else if ChecksumIEEE (bytes s) =? 2 ^ 31 then 0
       else 2 ^ 32 - ChecksumIEEE (bytes s)) ∧
  (hashcode.String Arch32 s = hashcode.String Arch64 s
   ↔ ChecksumIEEE (bytes s) < 2 ^ 31).
Proof.
  pose proof (uint32_ChecksumIEEE s) as Hc.
  set (crc := ChecksumIEEE (bytes s)) in *.
  assert (H64 : hashcode.String Arch64 s = crc).
  { unfold hashcode.String. fold crc. rewrite toInt_uint32_64 by done.
    destruct Hc. destruct (Z.geb_spec crc 0); [done|lia]. }
  assert (H32 : hashcode.String Arch32 s
                = (if crc <? 2 ^ 31 then crc
                   else if crc =? 2 ^ 31 then 0 else 2 ^ 32 - crc)).
  { unfold hashcode.String. fold crc. rewrite toInt_uint32_32 by done.
    destruct Hc as [Hc0 Hc1].
    destruct (Z.ltb_spec crc (2 ^ 31)) as [Hlt|Hge].
    - destruct (Z.geb_spec crc 0); [done|lia].
    - destruct (Z.geb_spec (crc - 2 ^ 32) 0); [lia|].
      rewrite neg_32 by lia.
      destruct (Z.eqb_spec crc (2 ^ 31)) as [->|Hne]; [reflexivity|].
      destruct (Z.eqb_spec (crc - 2 ^ 32) (- 2 ^ 31)); [lia|].
      destruct (Z.geb_spec (- (crc - 2 ^ 32)) 0); lia. }
  split_and!; [done|done|]. rewrite H64, H32. destruct Hc as [Hc0 Hc1].
  destruct (Z.ltb_spec crc (2 ^ 31)) as [Hlt|Hge]; [done|].
  destruct (Z.eqb_spec crc (2 ^ 31)); lia.
Qed.

Lemma joined_app l1 l2 : joined (l1 ++ l2) = (joined l1 +:+ joined l2)%string.
Proof.
  induction l1 as [|s l1 IH]; simpl; [done|].
  by rewrite IH, !append_assoc.
Qed.

(** X2: [Strings] hashes the elements each followed by "-", so a list is
    hashed like the list obtained by cutting one of its elements at a
    "-": the delimiter does not keep such lists apart.  The empty list
    hashes to "0". *)
Theorem Strings_delimiter_collision (a : Arch) (before after : list string)
    (s t : string) :
  Strings a (before ++ (s +:+ "-" +:+ t)%string :: after)
  = Strings a (before ++ s :: t :: after) ∧
  Strings a [] = "0"%string.
Proof.
  split.
  - unfold Strings, StringsHash. do 2 f_equal. rewrite !joined_app. f_equal.
    simpl. by rewrite !append_assoc.
  - by destruct a.
Qed.

End HashcodePlatforms.

(* ===================================================================== *)
(** * Further properties of the TLS subscription resource *)
(* ===================================================================== *)

Section MoreHandlerFacts.
Import fastly.
Local Open Scope string_scope.
Local Open Scope list_scope.

Variable Format_RFC3339 : Z → string.
Variable Map_unicode_ToLower : string → string.

Abbreviation Read := (resourceFastlyTLSSubscriptionRead Format_RFC3339).
Abbreviation Create := (resourceFastlyTLSSubscriptionCreate Format_RFC3339).
Abbreviation Update := (resourceFastlyTLSSubscriptionUpdate Format_RFC3339).
Abbreviation Delete := resourceFastlyTLSSubscriptionDelete.

(** *** Read *)

(** X3: when the fetch fails with the HTTP status 404, Read records
    nothing but the fetch, clears the identifier of the resource, writes
    no attribute, and returns one warning (no error) that names the
    identifier the resource had. *)
Theorem Read_not_found_removes_from_state conn w sub m :
  GetTLSSubscription conn (calls w) (getInput (Id (data w)))
    = (sub, Some (HTTPError 404 m)) →
  ∃ w', Read conn w = Return (notFoundWarning (Id (data w))) w' ∧
    HasError (notFoundWarning (Id (data w))) = false ∧
    Summary <$> notFoundWarning (Id (data w))
      = ["TLS subscription (" +:+ Id (data w) +:+ ") not found - removing from state"] ∧
    Id (data w') = "" ∧
    written (data w') = written (data w) ∧
    prior (data w') = prior (data w) ∧
    planned (data w') = planned (data w) ∧
    calls w' = calls w ++ [CallGetTLSSubscription (getInput (Id (data w)))].
Proof.
  intros HGet. rewrite (Read_not_found _ _ _ _ _ _ HGet eq_refl).
  eexists. split; [reflexivity|]. by split_and!.
Qed.

(** X4: a failure of the fetch that is not an HTTP error is never
    returned: when the client hands back no subscription with it, Read
    panics on the nil pointer, and when it hands back a complete
    subscription, Read returns without any diagnostic. *)
Theorem Read_fetch_failure_other_than_http conn w sub m :
  GetTLSSubscription conn (calls w) (getInput (Id (data w)))
    = (sub, Some (otherError m)) →
  match sub with
  | None =>
      Read conn w =
        Panic "invalid memory address or nil pointer dereference"
          (logged w (CallGetTLSSubscription (getInput (Id (data w)))))
  | Some s =>
      dnsValuesMissing (allChallenges s) = false →
      TLSSubscription.Authorizations s ≠ [] →
      ∃ w', Read conn w = Return [] w'
  end.
Proof.
  intros HGet. destruct sub as [s|].
  - intros Hm Ha. rewrite (Read_fetched _ _ _ _ _ HGet eq_refl). cbv zeta.
    rewrite Hm. destruct (TLSSubscription.Authorizations s); [done|]. by eexists.
  - by rewrite (Read_nil_subscription _ _ _ _ HGet eq_refl).
Qed.

Lemma afterRead_data sub l w :
  Id (data (afterRead Format_RFC3339 sub l w)) = Id (data w) ∧
  prior (data (afterRead Format_RFC3339 sub l w)) = prior (data w) ∧
  planned (data (afterRead Format_RFC3339 sub l w)) = planned (data w).
Proof. unfold afterRead. cbv zeta. by destruct (searchConfiguration l). Qed.

(** X5: whatever the client answers, Read sends the fetch and after it
    at most the domain listing, nothing else: no create, update or delete
    call; and it leaves the last-read state and the plan of the resource
    data as they were. *)
Theorem Read_only_fetches_and_lists conn w :
  (newCalls w (Read conn w) = [CallGetTLSSubscription (getInput (Id (data w)))] ∨
   ∃ sub,
     (GetTLSSubscription conn (calls w) (getInput (Id (data w)))).1 = Some sub ∧
     newCalls w (Read conn w)
     = [CallGetTLSSubscription (getInput (Id (data w)));
        CallListTLSDomains (listInput sub)]) ∧
  prior (data (worldOf (Read conn w))) = prior (data w) ∧
  planned (data (worldOf (Read conn w))) = planned (data w).
Proof.
  destruct (GetTLSSubscription conn (calls w) (getInput (Id (data w))))
    as [sub err] eqn:HGet.
  destruct (asHTTPError_cases err) as [(c & m & ->)|Herr].
  - destruct (Z.eq_dec c 404) as [Hc|Hc].
    + rewrite (Read_not_found _ _ _ _ _ _ HGet Hc).
      split; [left; by apply newCalls_app|done].
    + rewrite (Read_http_error _ _ _ _ _ _ HGet Hc).
      split; [left; by apply newCalls_app|done].
  - destruct sub as [sub|].
    + rewrite (Read_fetched _ _ _ _ _ HGet Herr). cbv zeta.
      destruct (dnsValuesMissing (allChallenges sub));
        [split; [left; by apply newCalls_app|done]|].
      destruct (TLSSubscription.Authorizations sub);
        [split; [left; by apply newCalls_app|done]|].
      cbn [worldOf]. split.
      * right. exists sub. split; [done|]. apply newCalls_app. cbn [worldOf].
        rewrite afterRead_calls. cbn [logged calls]. by rewrite <- app_assoc.
      * by destruct (afterRead_data sub
                       (ListTLSDomains conn
                          (calls (logged w (CallGetTLSSubscription
                                              (getInput (Id (data w))))))
                          (listInput sub)).1
                       (logged w (CallGetTLSSubscription (getInput (Id (data w))))))
          as (_ & -> & ->).
    + rewrite (Read_nil_subscription _ _ _ _ HGet Herr).
      split; [left; by apply newCalls_app|done].
Qed.

Lemma afterRead_written_other sub l w key :
  key ∉ readKeys →
  written (data (afterRead Format_RFC3339 sub l w)) !! key
  = written (data w) !! key.
Proof.
  intros Hkey.
  assert (Hne : ∀ k, k ∈ readKeys → k ≠ key) by (by intros k Hk ->).
  unfold afterRead. cbv zeta.
  destruct (searchConfiguration l); simpl;
    by rewrite !lookup_insert_ne by (apply Hne; repeat constructor).
Qed.

Lemma afterRead_written_keys sub l w key :
  key ∈ readKeys →
  is_Some (written (data (afterRead Format_RFC3339 sub l w)) !! key).
Proof.
  intros Hkey. unfold afterRead. cbv zeta.
  apply list_elem_of_In in Hkey. simpl in Hkey.
  destruct (searchConfiguration l); simpl;
    repeat (destruct Hkey as [<-|Hkey]; [by simplify_map_eq|]); done.
Qed.




Lemma legacyMap_last cs : ∀ old,
  legacyMap cs old =
    match last (List.filter isDNS cs) with
    | Some c => legacyEntry c (default "" (head (TLSChallenge.Values c)))
    | None => old
    end.
Proof.
  unfold legacyMap.
  induction cs as [|c cs IH]; intros old; simpl; [done|].
  rewrite IH. destruct (isDNS c) eqn:Hc; [|done].
  destruct (List.filter isDNS cs) as [|c' cs'] eqn:Hf; [done|].
  rewrite last_cons_cons.
  destruct (last (c' :: cs')) eqn:Hl; [done|]. by apply last_None in Hl.
Qed.


Lemma afterRead_written_independent sub l w1 w2 key :
  key ∈ readKeys →
  written (data (afterRead Format_RFC3339 sub l w1)) !! key
  = written (data (afterRead Format_RFC3339 sub l w2)) !! key.
Proof.
  intros Hkey. unfold afterRead. cbv zeta.
  apply list_elem_of_In in Hkey. simpl in Hkey.
  destruct (searchConfiguration l); simpl;
    repeat (destruct Hkey as [<-|Hkey]; [by simplify_map_eq|]); done.
Qed.

Lemma ResourceData_eq (d1 d2 : ResourceData) :
  Id d1 = Id d2 → prior d1 = prior d2 → planned d1 = planned d2 →
  written d1 = written d2 → d1 = d2.
Proof. destruct d1, d2. simpl. by intros -> -> -> ->. Qed.


(** *** Create and Delete *)

(** X9: after the check of the common name, Create sends one request
    built from the plan: the configuration and the common name are left
    out of it when they are not set, and the domains are those of the set.
    When the call succeeds, Create takes the identifier of the new
    subscription and goes on as a Read of it, so the next call is the
    fetch of that identifier; when the client returns neither a
    subscription nor an error, Create panics. *)
Theorem Create_reads_created_subscription conn w :
  (GetOkString (data w) "common_name" = None ∨
   ∃ v, GetOkString (data w) "common_name" = Some v ∧
        v ∈ GetSet (data w) "domains") →
  let i := createInput (data w) in
  let w1 := logged w (CallCreateTLSSubscription i) in
  (CreateTLSSubscriptionInput.Configuration i = None
     ↔ GetString (data w) "configuration_id" = "") ∧
  (CreateTLSSubscriptionInput.CommonName i = None
     ↔ GetString (data w) "common_name" = "") ∧
  (∀ x, newTLSDomain x ∈ CreateTLSSubscriptionInput.Domains i
        ↔ x ∈ GetSet (data w) "domains") ∧
  (∀ s, CreateTLSSubscription conn (calls w) i = (Some s, None) →
     Create conn w
       = Read conn {| data := SetId (data w) (TLSSubscription.ID s);
                      calls := calls w1 |} ∧
     ∃ l, newCalls w (Create conn w)
          = CallCreateTLSSubscription i
            :: CallGetTLSSubscription (getInput (TLSSubscription.ID s)) :: l) ∧
  (CreateTLSSubscription conn (calls w) i = (None, None) →
     Create conn w
       = Panic "invalid memory address or nil pointer dereference" w1).
Proof.
  intros Hcn. cbv zeta. split_and!.
  - unfold createInput, GetOkString. cbn.
    destruct (String.eqb_spec (GetString (data w) "configuration_id") ""); by split.
  - unfold createInput, GetOkString. cbn.
    destruct (String.eqb_spec (GetString (data w) "common_name") ""); by split.
  - intros x. unfold createInput, List_. cbn.
    rewrite list_elem_of_fmap. split.
    + intros (y & Hy & Hin). injection Hy as ->. by apply elem_of_elements.
    + intros Hx. exists x. by rewrite elem_of_elements.
  - intros s Hs. rewrite (Create_sent _ _ _ Hcn). cbv zeta. rewrite Hs.
    split; [done|].
    match goal with |- context [Read conn ?w2] =>
      destruct (Read_calls Format_RFC3339 conn w2) as (l & Hl & _) end.
    exists l. apply newCalls_app. rewrite Hl. cbn [calls logged data SetId Id].
    by rewrite <- app_assoc.
  - intros Hs. rewrite (Create_sent _ _ _ Hcn). cbv zeta. by rewrite Hs.
Qed.

(** X10: Delete sends exactly one call, the deletion of the resource's
    identifier, forced only when force_destroy is set (an unset flag reads
    as false), and changes nothing in the resource data; it returns an
    error diagnostic exactly when the call failed. *)
Theorem Delete_sends_one_call conn w :
  ∃ i ds,
    Delete conn w = Return ds (logged w (CallDeleteTLSSubscription i)) ∧
    DeleteTLSSubscriptionInput.ID i = Id (data w) ∧
    DeleteTLSSubscriptionInput.Force i = GetBool (data w) "force_destroy" ∧
    (written (data w) !! "force_destroy" = None →
     planned (data w) !! "force_destroy" = None →
     DeleteTLSSubscriptionInput.Force i = false) ∧
    (HasError ds = true ↔ is_Some (DeleteTLSSubscription conn (calls w) i)) ∧
    (ds = [] ↔ DeleteTLSSubscription conn (calls w) i = None).
Proof.
  eexists {| DeleteTLSSubscriptionInput.ID := Id (data w);
             DeleteTLSSubscriptionInput.Force := GetBool (data w) "force_destroy" |},
          _.
  split; [reflexivity|]. split_and!; try done.
  - intros Hw Hp. cbn. unfold GetBool, Get, valueAt. by rewrite Hw, Hp.
  - destruct (DeleteTLSSubscription conn (calls w) _); cbn; split;
      try done; by intros [? ?].
  - destruct (DeleteTLSSubscription conn (calls w) _); cbn; by split.
Qed.


(** *** Diff customization *)

Abbreviation Customize := (CustomizeDiff Map_unicode_ToLower).
Abbreviation lower := (ToLower Map_unicode_ToLower).
Abbreviation ValidateDomains :=
  (resourceFastlyTLSSubscriptionValidateDomains Map_unicode_ToLower).
Abbreviation ValidateCommonName :=
  (resourceFastlyTLSSubscriptionValidateCommonName Map_unicode_ToLower).

Lemma All_cons_errors f fs d :
  (All (f :: fs) d).2 = option_list (f d).2 ++ (All fs (f d).1).2.
Proof.
  simpl. destruct (f d) as [d1 e]. simpl. destruct (All fs d1). by destruct e.
Qed.

Lemma ForceNewIf_no_error key f d : (ForceNewIf key f d).2 = None.
Proof. unfold ForceNewIf. by destruct (f d). Qed.

Lemma sameView_trans d1 d2 d3 : sameView d1 d2 → sameView d2 d3 → sameView d1 d3.
Proof. intros (?&?&?) (?&?&?). split_and!; congruence. Qed.

Lemma sameView_DiffGet d d' key : sameView d d' → DiffGet d' key = DiffGet d key.
Proof. intros (Hp & Hn & Hc). unfold DiffGet. by rewrite Hn, Hc. Qed.

(** The three replacement rules together. *)
Lemma ForceNewIf_rules_view d :
  sameView d
    (ForceNewIf "common_name" resourceFastlyTLSSubscriptionIsStateImmutable
       (ForceNewIf "domains" resourceFastlyTLSSubscriptionIsStateImmutable
          (ForceNewIf "configuration_id"
             resourceFastlyTLSSubscriptionIsStateImmutable d).1).1).1.
Proof.
  eapply sameView_trans; [|apply ForceNewIf_spec; by eexists].
  eapply sameView_trans; [|apply ForceNewIf_spec; by eexists].
  apply ForceNewIf_spec; by eexists.
Qed.

Lemma CustomizeDiff_result d :
  ∃ d3, sameView d d3 ∧
        (Customize d).1 = (resourceFastlyTLSSubscriptionSetNewComputed d3).1.
Proof.
  unfold CustomizeDiff. rewrite !All_cons. eexists.
  split; [apply ForceNewIf_rules_view|]. reflexivity.
Qed.

(** X11: the customization marks the two challenge collections as not
    yet known exactly when the domains change, whatever the state of the
    subscription, and marks nothing else; it never alters the values it
    compares. *)
Theorem CustomizeDiff_marks_challenges_computed d :
  computedKeys (Customize d).1
    = (if DiffHasChange d "domains"
       then {[ "managed_http_challenges" ]} ∪
            ({[ "managed_dns_challenges" ]} ∪ computedKeys d)
       else computedKeys d) ∧
  diffPrior (Customize d).1 = diffPrior d ∧
  diffPlanned (Customize d).1 = diffPlanned d.
Proof.
  destruct (CustomizeDiff_result d) as (d3 & V & ->).
  unfold resourceFastlyTLSSubscriptionSetNewComputed.
  rewrite (sameView_HasChange _ _ _ V). destruct V as (Hp & Hn & Hc).
  destruct (DiffHasChange d "domains"); cbn; by rewrite Hp, Hn, Hc.
Qed.

(** X12: the errors of the customization are those of the two
    validations, the one of the domains first; both validations always
    run, and the replacement rules and the marking rule add no error.  No
    error is returned exactly when every planned domain and the planned
    common name equal their lower-case forms. *)
Theorem CustomizeDiff_errors d :
  (Customize d).2
    = option_list (ValidateDomains (DiffGet d "domains")) ++
      option_list (ValidateCommonName (DiffGet d "common_name")) ∧
  ((Customize d).2 = [] ↔
     (∀ x, x ∈ asSet (DiffGet d "domains") → x = lower x) ∧
     asString (DiffGet d "common_name") = lower (asString (DiffGet d "common_name"))).
Proof.
  assert (He : (Customize d).2
    = option_list (ValidateDomains (DiffGet d "domains")) ++
      option_list (ValidateCommonName (DiffGet d "common_name"))).
  { unfold CustomizeDiff. rewrite !All_cons_errors, !ForceNewIf_no_error.
    pose proof (ForceNewIf_rules_view d) as V.
    set (d3 := (ForceNewIf "common_name" _ _).1) in *. clearbody d3.
    unfold ValidateValue at 1 2 3 4. cbn [fst snd option_list app All].
    rewrite !(sameView_DiffGet _ _ _ V).
    unfold resourceFastlyTLSSubscriptionSetNewComputed.
    destruct (DiffHasChange _ "domains"); cbn [snd option_list app];
      by rewrite !app_nil_r. }
  split; [exact He|]. rewrite He.
  unfold resourceFastlyTLSSubscriptionValidateDomains,
    resourceFastlyTLSSubscriptionValidateCommonName, List_.
  pose proof (validateDomainsLoop_None Map_unicode_ToLower
                (elements (asSet (DiffGet d "domains")))
                (elements (asSet (DiffGet d "domains")))) as Hd.
  rewrite Forall_forall in Hd.
  destruct (validateDomainsLoop _ _ _) as [e|].
  - split; [done|]. intros [Hall _].
    assert (Some e = None); [|done].
    apply Hd. intros x Hx. apply Hall. by apply elem_of_elements.
  - destruct (String.eqb_spec (asString (DiffGet d "common_name"))
                (lower (asString (DiffGet d "common_name")))) as [Heq|Hne]; simpl.
    + split; [|done]. intros _. split; [|done].
      intros x Hx. apply (proj1 Hd eq_refl). by apply elem_of_elements.
    + split; [done|]. by intros [_ ?].
Qed.

(** *** Lower-casing *)

Lemma lowerByte_not_upper c :
  isASCIIByte c = true →
  isASCIIByte (lowerByte c) = true ∧ isUpperByte (lowerByte c) = false.
Proof.
  intros Ha. unfold lowerByte. destruct (isUpperByte c) eqn:Hu; [|done].
  unfold isUpperByte in Hu. apply andb_true_iff in Hu as [H1 H2].
  apply N.leb_le in H1, H2.
  unfold isASCIIByte, isUpperByte.
  rewrite Ascii.N_ascii_embedding by lia. split.
  - apply N.ltb_lt. lia.
  - apply andb_false_iff. right. apply N.leb_gt. lia.
Qed.

Lemma lowerByte_id c : isUpperByte c = false → lowerByte c = c.
Proof. unfold lowerByte. by intros ->. Qed.

Lemma ToLower_ascii_bytes s :
  forallb isASCIIByte (String.list_ascii_of_string s) = true →
  String.list_ascii_of_string (lower s)
  = lowerByte <$> String.list_ascii_of_string s.
Proof.
  intros Ha. unfold ToLower. rewrite Ha.
  destruct (existsb isUpperByte (String.list_ascii_of_string s)) eqn:Hu; simpl.
  - by rewrite String.list_ascii_of_string_of_list_ascii.
  - clear Ha. induction (String.list_ascii_of_string s) as [|c cs IH]; [done|].
    simpl in Hu. apply orb_false_iff in Hu as [Hc Hcs].
    simpl. rewrite (lowerByte_id _ Hc). f_equal. by apply IH.
Qed.

Lemma ToLower_ascii_idempotent s :
  forallb isASCIIByte (String.list_ascii_of_string s) = true →
  lower (lower s) = lower s.
Proof.
  intros Ha. symmetry.
  assert (Hb : Forall (λ c, isASCIIByte c = true ∧ isUpperByte c = false)
                 (String.list_ascii_of_string (lower s))).
  { rewrite (ToLower_ascii_bytes s Ha). apply Forall_fmap, Forall_forall.
    intros c Hc. apply lowerByte_not_upper.
    rewrite forallb_forall in Ha. by apply Ha, list_elem_of_In. }
  apply ToLower_ascii.
  - apply forallb_forall. intros c Hc.
    rewrite Forall_forall in Hb. by apply Hb, list_elem_of_In.
  - apply not_true_iff_false. intros (c & Hc & Hu)%existsb_exists.
    rewrite Forall_forall in Hb. apply list_elem_of_In, Hb in Hc as [_ Hn].
    congruence.
Qed.

(** X13: lower-casing repairs an ASCII name: for domains and a common
    name made of ASCII bytes, the lower-cased values pass both
    validations. *)
Theorem lowercased_ascii_names_are_valid (s : gset string) (cn : string) :
  (∀ x, x ∈ s → forallb isASCIIByte (String.list_ascii_of_string x) = true) →
  forallb isASCIIByte (String.list_ascii_of_string cn) = true →
  ValidateDomains (VSet (set_map lower s)) = None ∧
  ValidateCommonName (VString (lower cn)) = None.
Proof.
  intros Hs Hcn. split.
  - unfold resourceFastlyTLSSubscriptionValidateDomains, List_. simpl.
    apply validateDomainsLoop_None, Forall_forall. intros y Hy.
    apply elem_of_elements, elem_of_map in Hy as (x & -> & Hx).
    symmetry. by apply ToLower_ascii_idempotent, Hs.
  - unfold resourceFastlyTLSSubscriptionValidateCommonName. simpl.
    rewrite (ToLower_ascii_idempotent cn Hcn). by rewrite String.eqb_refl.
Qed.

End MoreHandlerFacts.

(* ===================================================================== *)
(** * The further properties on sample inputs *)
(* ===================================================================== *)

Section MoreSamples.
Import fastly.
Local Open Scope string_scope.
Local Open Scope list_scope.

Abbreviation sub := (sampleSubscription sampleAuthorizations).
Abbreviation w := (sampleWorld "a.example.com").
Abbreviation steady := (sampleClient (Some sub, None) ([], None) None).

Lemma Read_not_found_removes_from_state_witness :
  ∃ w', resourceFastlyTLSSubscriptionRead sampleFormat
          (sampleClient (None, Some (HTTPError 404 "Not Found")) ([], None) None) w
        = Return (notFoundWarning "sub1") w' ∧
        Id (data w') = "" ∧ written (data w') = ∅.
Proof.
  destruct (Read_not_found_removes_from_state sampleFormat
              (sampleClient (None, Some (HTTPError 404 "Not Found")) ([], None) None)
              w None "Not Found" eq_refl)
    as (w' & HR & _ & _ & Hid & Hw & _).
  exists w'. split_and!; [exact HR | exact Hid | exact Hw].
Defined.

Lemma Read_fetch_failure_other_than_http_witness :
  resourceFastlyTLSSubscriptionRead sampleFormat
    (sampleClient (None, Some (otherError "connection refused")) ([], None) None) w
  = Panic "invalid memory address or nil pointer dereference"
      (logged w (CallGetTLSSubscription (getInput "sub1"))).
Proof.
  exact (Read_fetch_failure_other_than_http sampleFormat
           (sampleClient (None, Some (otherError "connection refused")) ([], None) None)
           w None "connection refused" eq_refl).
Defined.





Lemma Create_reads_created_subscription_witness :
  ∃ l, newCalls w (resourceFastlyTLSSubscriptionCreate sampleFormat steady w)
       = CallCreateTLSSubscription (createInput (data w))
         :: CallGetTLSSubscription (getInput "sub1") :: l.
Proof.
  assert (Hcn : GetOkString (data w) "common_name" = None ∨
                ∃ v, GetOkString (data w) "common_name" = Some v ∧
                     v ∈ GetSet (data w) "domains").
  { right. exists "a.example.com". split.
    - vm_compute. reflexivity.
    - apply (bool_decide_unpack _). vm_compute. reflexivity. }
  destruct (Create_reads_created_subscription sampleFormat steady w Hcn)
    as (_ & _ & _ & Hok & _).
  exact (proj2 (Hok sub eq_refl)).
Defined.

Lemma Delete_sends_one_call_witness :
  ∃ i ds, resourceFastlyTLSSubscriptionDelete steady w
          = Return ds (logged w (CallDeleteTLSSubscription i)) ∧
          DeleteTLSSubscriptionInput.ID i = "sub1" ∧
          DeleteTLSSubscriptionInput.Force i = false.
Proof.
  destruct (Delete_sends_one_call steady w)
    as (i & ds & HR & Hid & _ & Hf & _).
  exists i, ds. split_and!; [exact HR | exact Hid |].
  apply Hf; vm_compute; reflexivity.
Defined.

Lemma CustomizeDiff_errors_witness :
  (CustomizeDiff (fun s => s) (sampleDiff "issued")).2 = [].
Proof.
  apply (proj2 (proj2 (CustomizeDiff_errors (fun s => s) (sampleDiff "issued")))).
  split.
  - intros x Hx.
    change (asSet (DiffGet (sampleDiff "issued") "domains"))
      with ({[ "a.example.com"; "b.example.com" ]} : gset string) in Hx.
    apply elem_of_union in Hx as [Hx|Hx]; apply elem_of_singleton in Hx;
      rewrite Hx; reflexivity.
  - reflexivity.
Defined.

Lemma lowercased_ascii_names_are_valid_witness :
  resourceFastlyTLSSubscriptionValidateDomains (fun s => s)
    (VSet (set_map (ToLower (fun s => s)) ({[ "A.example.com" ]} : gset string)))
    = None ∧
  resourceFastlyTLSSubscriptionValidateCommonName (fun s => s)
    (VString (ToLower (fun s => s) "A.Example.COM")) = None.
Proof.
  apply (lowercased_ascii_names_are_valid (fun s => s)
           {[ "A.example.com" ]} "A.Example.COM").
  - intros x Hx. apply elem_of_singleton in Hx. rewrite Hx. reflexivity.
  - reflexivity.
Defined.

End MoreSamples.
